(** * The parameterised-computation cache of the driven-pendulum visualiser

  A shallow embedding of [src/streamlit/pendulum_perf.py]: the parameter
  fingerprint ([create_params_hash]), the initial-condition generator
  ([generate_initial_conditions_optimized]), the chunked batch solver
  ([solve_trajectories_optimized]), the script body that decides between
  recomputing and reusing the cached batch ([should_recompute] and the
  block around [should_compute]) and the data that
  [create_optimized_plots] draws.

  Python values are modelled as follows.
  - [int] is [Z]; [str] is [string] (the strings built here are ASCII, so
    [str.encode()] is the identity on their bytes).
  - [float] is an IEEE binary64 value, [spec_float] with precision 53 and
    maximal exponent 1024; arithmetic is the correctly rounded arithmetic
    of [SpecFloat].
  - NumPy and SciPy routines whose results depend on the platform's libm or
    on the integrator ([np.linspace], [np.sin], the float remainder,
    [solve_ivp]) are parameters of the development. *)

From Stdlib Require Import ZArith List Bool String Ascii Lia.
From Stdlib Require Import DecimalString DecimalZ DecimalPos.
From Stdlib Require Import Floats.SpecFloat.
Import ListNotations.

Local Open Scope string_scope.
Local Open Scope Z_scope.

(* ================================================================== *)
(** ** Python floats *)

(** An IEEE binary64 value. *)
Definition float : Type := spec_float.

Module PyFloat.

Definition prec : Z := 53.
Definition emax : Z := 1024.

Definition add : float -> float -> float := SFadd prec emax.
Definition sub : float -> float -> float := SFsub prec emax.
Definition mul : float -> float -> float := SFmul prec emax.
Definition div : float -> float -> float := SFdiv prec emax.
Definition sqrt : float -> float := SFsqrt prec emax.

(** [a < b] on floats; false as soon as one side is NaN. *)
Definition ltb (a b : float) : bool := SFltb a b.

(** Conversion of a Python [int] to [float] (round to nearest even). *)
Definition of_Z (n : Z) : float := binary_normalize prec emax n 0 false.

(** A literal given by mantissa and binary exponent. *)
Definition lit (m : positive) (e : Z) : float := S754_finite false m e.

Definition zero : float := S754_zero false.

(** Structural (bitwise) equality, the equality a hash of the value sees. *)
Definition eqb (a b : float) : bool :=
  match a, b with
  | S754_zero s, S754_zero s' => Bool.eqb s s'
  | S754_infinity s, S754_infinity s' => Bool.eqb s s'
  | S754_nan, S754_nan => true
  | S754_finite s m e, S754_finite s' m' e' =>
      Bool.eqb s s' && Pos.eqb m m' && Z.eqb e e'
  | _, _ => false
  end.

(** [int(x)]: truncation towards zero; raises (here [None]) on NaN and on
    the infinities. *)
Definition to_int (x : float) : option Z :=
  match x with
  | S754_zero _ => Some 0
  | S754_infinity _ | S754_nan => None
  | S754_finite s m e =>
      let a := if 0 <=? e then Z.pos m * 2 ^ e
               else Z.pos m / 2 ^ (- e) in
      Some (if s then - a else a)
  end.

End PyFloat.

(* ================================================================== *)
(** ** Fixed-point formatting: [f"{x:.2f}"] and [f"{x:.1f}"] *)

Module Format.

(** The value a float rounds to at a given number of decimals: a signed
    count of units of [10^-d].  The sign is kept apart from the magnitude
    because the formatter prints the sign bit of the float even when the
    magnitude rounds to zero ([-0.001] gives [-0.00]). *)
Inductive rounded :=
| RNan
| RInf (neg : bool)
| RFin (neg : bool) (units : Z).

(** [a / 2^k] rounded to the nearest integer, ties to even. *)
Definition div_pow2_half_even (a k : Z) : Z :=
  let q := a / 2 ^ k in
  let r := a mod 2 ^ k in
  let half := 2 ^ (k - 1) in
  if (half <? r) || ((r =? half) && Z.odd q) then q + 1 else q.

(** Correct rounding of the exact binary value [m * 2^e] to [d] decimals. *)
Definition round_decimals (d : nat) (x : float) : rounded :=
  match x with
  | S754_nan => RNan
  | S754_infinity s => RInf s
  | S754_zero s => RFin s 0
  | S754_finite s m e =>
      let a := Z.pos m * 10 ^ Z.of_nat d in
      RFin s (if 0 <=? e then a * 2 ^ e else div_pow2_half_even a (- e))
  end.

Definition digit_char (k : Z) : ascii :=
  ascii_of_nat (48 + Z.to_nat (k mod 10)).

(** Exactly [d] decimal digits of [k], most significant first. *)
Fixpoint fixed_digits (d : nat) (k : Z) : string :=
  match d with
  | O => ""
  | S d' => fixed_digits d' (k / 10) ++ String (digit_char k) ""
  end.

(** [str(n)] for a Python [int]. *)
Definition str_int (n : Z) : string := NilZero.string_of_int (Z.to_int n).

Definition sign_prefix (neg : bool) : string := if neg then "-" else "".

Definition render (d : nat) (r : rounded) : string :=
  match r with
  | RNan => "nan"
  | RInf neg => sign_prefix neg ++ "inf"
  | RFin neg u =>
      let p := 10 ^ Z.of_nat d in
      sign_prefix neg ++ str_int (u / p) ++
      match d with
      | O => ""
      | _ => "." ++ fixed_digits d (u mod p)
      end
  end.

Definition format_fixed (d : nat) (x : float) : string :=
  render d (round_decimals d x).

End Format.

(** [0, 1, ..., n-1] *)
Definition indices (n : nat) : list Z := map Z.of_nat (seq 0 n).

(* ================================================================== *)
(** ** [hashlib.md5(...).hexdigest()] (RFC 1321) *)

Module MD5.

Local Open Scope list_scope.

Definition mask32 : Z := 4294967295.
Definition add32 (a b : Z) : Z := Z.land (a + b) mask32.
Definition not32 (a : Z) : Z := Z.lxor a mask32.
Definition rotl32 (a s : Z) : Z :=
  Z.lor (Z.land (Z.shiftl a s) mask32) (Z.shiftr a (32 - s)).

Definition K : list Z :=
  [ 0xd76aa478; 0xe8c7b756; 0x242070db; 0xc1bdceee;
    0xf57c0faf; 0x4787c62a; 0xa8304613; 0xfd469501;
    0x698098d8; 0x8b44f7af; 0xffff5bb1; 0x895cd7be;
    0x6b901122; 0xfd987193; 0xa679438e; 0x49b40821;
    0xf61e2562; 0xc040b340; 0x265e5a51; 0xe9b6c7aa;
    0xd62f105d; 0x02441453; 0xd8a1e681; 0xe7d3fbc8;
    0x21e1cde6; 0xc33707d6; 0xf4d50d87; 0x455a14ed;
    0xa9e3e905; 0xfcefa3f8; 0x676f02d9; 0x8d2a4c8a;
    0xfffa3942; 0x8771f681; 0x6d9d6122; 0xfde5380c;
    0xa4beea44; 0x4bdecfa9; 0xf6bb4b60; 0xbebfbc70;
    0x289b7ec6; 0xeaa127fa; 0xd4ef3085; 0x04881d05;
    0xd9d4d039; 0xe6db99e5; 0x1fa27cf8; 0xc4ac5665;
    0xf4292244; 0x432aff97; 0xab9423a7; 0xfc93a039;
    0x655b59c3; 0x8f0ccc92; 0xffeff47d; 0x85845dd1;
    0x6fa87e4f; 0xfe2ce6e0; 0xa3014314; 0x4e0811a1;
    0xf7537e82; 0xbd3af235; 0x2ad7d2bb; 0xeb86d391 ].

Definition shifts : list Z :=
  [ 7; 12; 17; 22; 7; 12; 17; 22; 7; 12; 17; 22; 7; 12; 17; 22;
    5; 9; 14; 20; 5; 9; 14; 20; 5; 9; 14; 20; 5; 9; 14; 20;
    4; 11; 16; 23; 4; 11; 16; 23; 4; 11; 16; 23; 4; 11; 16; 23;
    6; 10; 15; 21; 6; 10; 15; 21; 6; 10; 15; 21; 6; 10; 15; 21 ].

Definition nthZ (l : list Z) (i : Z) : Z := nth (Z.to_nat i) l 0.

Record regs := Regs { rA : Z; rB : Z; rC : Z; rD : Z }.

Definition init : regs :=
  Regs 0x67452301 0xefcdab89 0x98badcfe 0x10325476.

(** One of the 64 operations on the block whose 16 words are [M]. *)
Definition step (M : list Z) (r : regs) (i : Z) : regs :=
  let '(Regs a b c d) := r in
  let '(f, g) :=
    if i <? 16 then (Z.lor (Z.land b c) (Z.land (not32 b) d), i)
    else if i <? 32 then
      (Z.lor (Z.land d b) (Z.land (not32 d) c), (5 * i + 1) mod 16)
    else if i <? 48 then (Z.lxor b (Z.lxor c d), (3 * i + 5) mod 16)
    else (Z.lxor c (Z.lor b (not32 d)), (7 * i) mod 16) in
  let f' := add32 (add32 (add32 f a) (nthZ K i)) (nthZ M g) in
  Regs d (add32 b (rotl32 f' (nthZ shifts i))) b c.

(** Little-endian 32-bit words of a byte sequence. *)
Fixpoint words (fuel : nat) (bs : list Z) : list Z :=
  match fuel, bs with
  | S fuel', b0 :: b1 :: b2 :: b3 :: rest =>
      (b0 + 256 * (b1 + 256 * (b2 + 256 * b3))) :: words fuel' rest
  | _, _ => []
  end.

Definition block (r : regs) (M : list Z) : regs :=
  let '(Regs a b c d) := fold_left (step M) (indices 64) r in
  Regs (add32 (rA r) a) (add32 (rB r) b) (add32 (rC r) c) (add32 (rD r) d).

Fixpoint blocks (fuel : nat) (r : regs) (ws : list Z) : regs :=
  match fuel, ws with
  | S fuel', _ :: _ => blocks fuel' (block r (firstn 16 ws)) (skipn 16 ws)
  | _, _ => r
  end.

Definition le_bytes (n : nat) (v : Z) : list Z :=
  map (fun i => Z.land (Z.shiftr v (8 * i)) 255) (indices n).

(** The message followed by the bit 1, zeros up to 56 modulo 64, and the
    length in bits on 8 bytes. *)
Definition pad (msg : list Z) : list Z :=
  let len := Z.of_nat (List.length msg) in
  let zeros := (55 - len) mod 64 in
  msg ++ 128 :: repeat 0 (Z.to_nat zeros) ++ le_bytes 8 (8 * len mod 2 ^ 64).

Definition digest (msg : list Z) : list Z :=
  let p := pad msg in
  let ws := words (List.length p) p in
  let '(Regs a b c d) := blocks (List.length ws) init ws in
  le_bytes 4 a ++ le_bytes 4 b ++ le_bytes 4 c ++ le_bytes 4 d.

Definition hex_char (k : Z) : ascii :=
  ascii_of_nat (Z.to_nat (if k <? 10 then 48 + k else 87 + k)).

Fixpoint hex (bs : list Z) : string :=
  match bs with
  | [] => ""
  | b :: rest =>
      String (hex_char (b / 16)) (String (hex_char (b mod 16)) (hex rest))
  end.

(** [s.encode()]: the bytes of an ASCII string. *)
Fixpoint encode (s : string) : list Z :=
  match s with
  | EmptyString => []
  | String c rest => Z.of_nat (nat_of_ascii c) :: encode rest
  end.

Definition hexdigest (s : string) : string := hex (digest (encode s)).

End MD5.

(* ================================================================== *)
(** ** Python built-ins used by the script *)

Inductive exception := ValueError | OverflowError.

(** A computation that returns or raises. *)
Inductive exc (A : Type) :=
| Ok (a : A)
| Raise (e : exception).

Arguments Ok {A} a.
Arguments Raise {A} e.

Definition bind {A B} (c : exc A) (k : A -> exc B) : exc B :=
  match c with
  | Ok a => k a
  | Raise e => Raise e
  end.

Notation "x <- c ;; k" := (bind c (fun x => k))
  (at level 61, c at next level, right associativity).

(** [int(x)] on a float: [ValueError] on NaN, [OverflowError] on infinity. *)
Definition py_int (x : float) : exc Z :=
  match x with
  | S754_nan => Raise ValueError
  | S754_infinity _ => Raise OverflowError
  | _ => match PyFloat.to_int x with
         | Some n => Ok n
         | None => Raise ValueError
         end
  end.

(** [range(start, stop, step)]; a zero step raises [ValueError]. *)
Definition py_range (start stop step : Z) : exc (list Z) :=
  if step =? 0 then Raise ValueError
  else
    let count :=
      if 0 <? step then (stop - start + step - 1) / step
      else (start - stop - step - 1) / (- step) in
    Ok (map (fun i => start + i * step) (indices (Z.to_nat count))).

(** [l[lo:hi]]: negative bounds count from the end, all bounds are clipped. *)
Definition clip_index (len i : Z) : Z :=
  if i <? 0 then Z.max 0 (len + i) else Z.min i len.

Definition py_slice {A} (l : list A) (lo hi : Z) : list A :=
  let len := Z.of_nat (List.length l) in
  let a := clip_index len lo in
  let b := clip_index len hi in
  firstn (Z.to_nat (b - a)) (skipn (Z.to_nat a) l).

(* ================================================================== *)
(** ** Parameters and their fingerprint *)

Inductive Quality := Fast | Balanced | High.

(** The option strings of the "Computation quality" select box. *)
Definition quality_name (q : Quality) : string :=
  match q with
  | Fast => "Fast"
  | Balanced => "Balanced"
  | High => "High"
  end.

Definition Quality_eqb (a b : Quality) : bool :=
  match a, b with
  | Fast, Fast | Balanced, Balanced | High, High => true
  | _, _ => false
  end.

Record QualitySetting := {
  rtol : float;
  points_per_unit : Z;
  method : string
}.

(** The tolerances are the floats [1e-6], [1e-7] and [1e-8]. *)
Definition quality_settings (q : Quality) : QualitySetting :=
  match q with
  | Fast => {| rtol := PyFloat.lit 4722366482869645 (-72);
               points_per_unit := 20; method := "RK23" |}
  | Balanced => {| rtol := PyFloat.lit 7555786372591432 (-76);
                   points_per_unit := 30; method := "RK45" |}
  | High => {| rtol := PyFloat.lit 6044629098073146 (-79);
               points_per_unit := 50; method := "DOP853" |}
  end.

(** [f"{num_traj}_{eps:.2f}_{max_t:.1f}_{quality}"] *)
Definition params_str (num_traj : Z) (eps max_t : float) (quality : Quality)
  : string :=
  (Format.str_int num_traj ++ "_" ++ Format.format_fixed 2 eps ++ "_" ++
   Format.format_fixed 1 max_t ++ "_" ++ quality_name quality)%string.

Definition create_params_hash (num_traj : Z) (eps max_t : float)
  (quality : Quality) : string :=
  MD5.hexdigest (params_str num_traj eps max_t quality).

(* ================================================================== *)
(** ** The numerical collaborators *)

Record OdeResult := {
  sol_success : bool;
  sol_t : list float;
  sol_y : list (list float)
}.

Inductive IvpOutcome :=
| IvpRaise
| IvpReturn (sol : OdeResult).

(** The arguments of one [solve_ivp] call (the right-hand side is always
    [driven_pendulum]). *)
Record IvpCall := {
  ivp_t_span : float * float;
  ivp_y0 : float * float;
  ivp_t_eval : list float;
  ivp_epsilon : float;
  ivp_method : string;
  ivp_rtol : float;
  ivp_max_step : float
}.

Class Externals := {
  (** [np.linspace(start, stop, num, endpoint)]: the samples it returns
      when it returns.  A call that NumPy cannot serve (a sample count it
      cannot allocate) is outside this model. *)
  np_linspace : float -> float -> Z -> bool -> list float;
  (** [np.sin] on one element *)
  np_sin : float -> float;
  (** [%] on NumPy floats *)
  np_mod : float -> float -> float;
  (** [scipy.integrate.solve_ivp] *)
  solve_ivp : IvpCall -> IvpOutcome
}.

(** SciPy documents [sol.t] of shape [(n_points,)] and [sol.y] of shape
    [(n, n_points)]: every row of [y] is as long as [t]. *)
Definition ode_shape (sol : OdeResult) : Prop :=
  Forall (fun row => List.length row = List.length (sol_t sol)) (sol_y sol).

Definition solver_shape_contract (ext : Externals) : Prop :=
  forall call sol, solve_ivp call = IvpReturn sol -> ode_shape sol.


Record Trajectory := {
  traj_t : list float;
  traj_x : list float;
  traj_v : list float;
  traj_initial : float * float
}.

(* ================================================================== *)
(** ** The initial-condition generator and the batch solver *)

Section Solver.

Context {ext : Externals}.

(** [np.pi], the float nearest to pi. *)
Definition np_pi : float := PyFloat.lit 7074237752028440 (-51).

(** The literal [0.1]. *)
Definition tenth : float := PyFloat.lit 7205759403792794 (-56).

(** [(1 + np.sqrt(5)) / 2] *)
Definition golden_ratio : float :=
  PyFloat.div (PyFloat.add (PyFloat.of_Z 1) (PyFloat.sqrt (PyFloat.of_Z 5)))
    (PyFloat.of_Z 2).

Definition generate_initial_conditions_optimized (num_trajectories : Z)
  : list (float * float) :=
  if num_trajectories <=? 1 then [(tenth, tenth)]
  else
    let two_pi := PyFloat.mul (PyFloat.of_Z 2) np_pi in
    let angles := np_linspace PyFloat.zero two_pi num_trajectories false in
    let positions :=
      map (fun k =>
             PyFloat.sub
               (np_mod (PyFloat.mul two_pi
                          (PyFloat.div (PyFloat.of_Z k) golden_ratio))
                       two_pi)
               np_pi)
          (indices (Z.to_nat num_trajectories)) in
    let velocities :=
      map (fun a => PyFloat.mul (PyFloat.of_Z 3)
                      (np_sin (PyFloat.mul a golden_ratio)))
          angles in
    combine positions velocities.

(** [max(50, int(max_time * quality["points_per_unit"]))] *)
Definition num_points (max_time : float) (quality : QualitySetting) : exc Z :=
  n <- py_int (PyFloat.mul max_time (PyFloat.of_Z (points_per_unit quality))) ;;
  Ok (Z.max 50 n).

Definition ivp_call (epsilon max_time : float) (quality : QualitySetting)
  (t_eval : list float) (y0 : float * float) : IvpCall :=
  {| ivp_t_span := (PyFloat.zero, max_time);
     ivp_y0 := y0;
     ivp_t_eval := t_eval;
     ivp_epsilon := epsilon;
     ivp_method := method quality;
     ivp_rtol := rtol quality;
     ivp_max_step := PyFloat.div max_time (PyFloat.of_Z 100) |}.

(** The body of the [try]: the trajectory appended for [y0], if any.  An
    exception of the solver, or of the indexing of [sol.y], is swallowed. *)
Definition solve_one (epsilon max_time : float) (quality : QualitySetting)
  (t_eval : list float) (y0 : float * float) : option Trajectory :=
  match solve_ivp (ivp_call epsilon max_time quality t_eval y0) with
  | IvpRaise => None
  | IvpReturn sol =>
      if sol_success sol && (10 <? List.length (sol_t sol))%nat then
        match nth_error (sol_y sol) 0, nth_error (sol_y sol) 1 with
        | Some x, Some v =>
            Some {| traj_t := sol_t sol; traj_x := x; traj_v := v;
                    traj_initial := y0 |}
        | _, _ => None
        end
      else None
  end.

(** What the loops carry: the [trajectories] list and, for the record, the
    initial states the solver has been invoked on. *)
Record Batch := {
  trajectories : list Trajectory;
  solver_calls : list (float * float)
}.

Definition empty_batch : Batch := {| trajectories := []; solver_calls := [] |}.

Definition loop_body (epsilon max_time : float) (quality : QualitySetting)
  (t_eval : list float) (acc : Batch) (y0 : float * float) : Batch :=
  {| trajectories :=
       match solve_one epsilon max_time quality t_eval y0 with
       | Some tr => trajectories acc ++ [tr]
       | None => trajectories acc
       end;
     solver_calls := solver_calls acc ++ [y0] |}.

Definition chunk_loop (epsilon max_time : float) (quality : QualitySetting)
  (t_eval : list float) (initial_conditions : list (float * float))
  (num_trajectories chunk_size : Z) (acc : Batch) (chunk_start : Z) : Batch :=
  let chunk_end := Z.min (chunk_start + chunk_size) num_trajectories in
  let chunk_ics := py_slice initial_conditions chunk_start chunk_end in
  fold_left (loop_body epsilon max_time quality t_eval) chunk_ics acc.

(** [solve_trajectories_optimized] with the chunk size left open. *)
Definition solve_trajectories_chunked (chunk_size : Z)
  (num_trajectories : Z) (epsilon max_time : float) (quality_key : Quality)
  : exc Batch :=
  let quality := quality_settings quality_key in
  let initial_conditions :=
    generate_initial_conditions_optimized num_trajectories in
  n <- num_points max_time quality ;;
  let t_eval := np_linspace PyFloat.zero max_time n true in
  starts <- py_range 0 num_trajectories chunk_size ;;
  Ok (fold_left
        (chunk_loop epsilon max_time quality t_eval initial_conditions
           num_trajectories chunk_size)
        starts empty_batch).

(** The function of the source: [chunk_size = min(10, num_trajectories)]. *)
Definition solve_trajectories_optimized (num_trajectories : Z)
  (epsilon max_time : float) (quality_key : Quality) : exc Batch :=
  solve_trajectories_chunked (Z.min 10 num_trajectories)
    num_trajectories epsilon max_time quality_key.

(** The loop of the specification: the solver is invoked once per initial
    condition, in sequence, with no chunking. *)
Definition solve_trajectories_unchunked (num_trajectories : Z)
  (epsilon max_time : float) (quality_key : Quality) : exc Batch :=
  let quality := quality_settings quality_key in
  let initial_conditions :=
    generate_initial_conditions_optimized num_trajectories in
  n <- num_points max_time quality ;;
  let t_eval := np_linspace PyFloat.zero max_time n true in
  Ok (fold_left (loop_body epsilon max_time quality t_eval)
        initial_conditions empty_batch).


(** The initial states whose solve leaves nothing in the batch. *)
Definition failing (eps T : float) (qs : QualitySetting) (t_eval : list float)
  (y0 : float * float) : bool :=
  match solve_one eps T qs t_eval y0 with
  | Some _ => false
  | None => true
  end.

(** The trajectories a sequence of solves leaves in the batch. *)
Definition stored (eps T : float) (qs : QualitySetting) (t_eval : list float)
  (calls : list (float * float)) : list Trajectory :=
  flat_map (fun y0 => match solve_one eps T qs t_eval y0 with
                      | Some tr => [tr]
                      | None => []
                      end) calls.

(** Every trajectory in the batch is the one its solver call produced. *)
Definition batch_inv (eps T : float) (qs : QualitySetting)
  (t_eval : list float) (b : Batch) : Prop :=
  trajectories b = stored eps T qs t_eval (solver_calls b).

End Solver.

(** Time points, positions and velocities of one length, and more than ten
    of them. *)
Definition well_formed (tr : Trajectory) : Prop :=
  List.length (traj_t tr) = List.length (traj_x tr) /\
  List.length (traj_x tr) = List.length (traj_v tr) /\
  (10 < List.length (traj_t tr))%nat.

(** The chunk starts [0, c, 2c, ...] of [range(0, n, c)]. *)
Definition chunk_starts (c : Z) (j : nat) : list Z :=
  map (fun i => 0 + i * c) (indices j).

(** Array sizes that the sliders can ask for: between 1 and 5000 initial
    conditions (line 26) and at most 50 * 50 time points (a horizon of at
    most 50, line 30, at no more than 50 points per unit, line 53).  NumPy
    builds arrays of these sizes; for sizes it cannot allocate
    [np.linspace] and [np.arange] raise instead of returning. *)
Definition within_sliders (count samples : Z) : Prop :=
  1 <= count <= 5000 /\ samples <= 50 * 50.

(* ================================================================== *)
(** ** Session state, the memoising decorator and one run of the script *)

Record Inputs := {
  num_trajectories : Z;
  epsilon : float;
  max_time : float;
  computation_quality : Quality;
  auto_compute : bool;
  (** the "Compute Trajectories" button; only drawn when [auto_compute] is
      off *)
  compute_button : bool
}.

(** [st.session_state], as lines 12-17 initialise it. *)
Record SessionState := {
  last_computation_time : float;
  cached_trajectories : option (list Trajectory);
  cached_params_hash : option string
}.

Definition initial_session : SessionState :=
  {| last_computation_time := PyFloat.zero;
     cached_trajectories := None;
     cached_params_hash := None |}.

(** The store behind [@st.cache_data(ttl=1800)] on
    [solve_trajectories_optimized].  The decorator sees the four arguments of
    the call and nothing else, so an entry is keyed by their values; an entry
    that has reached its time-to-live is a miss and is dropped on access. *)
Record MemoEntry := {
  memo_args : Z * float * float * Quality;
  memo_value : list Trajectory;
  memo_created : float
}.

Definition Memo := list MemoEntry.

Definition args_eqb (a b : Z * float * float * Quality) : bool :=
  let '(n, e, t, q) := a in
  let '(n', e', t', q') := b in
  (n =? n') && PyFloat.eqb e e' && PyFloat.eqb t t' && Quality_eqb q q'.

(** [ttl=1800] *)
Definition memo_ttl : float := PyFloat.of_Z 1800.

(** The time-to-live rule of the decorator's store: an entry expires at
    [created + ttl] and is served only while the clock reads less than
    that, [now < created + ttl].  At exactly 1800 seconds it is a miss. *)
Definition expired (now : float) (e : MemoEntry) : bool :=
  negb (PyFloat.ltb now (PyFloat.add (memo_created e) memo_ttl)).

Definition memo_drop (args : Z * float * float * Quality) (m : Memo) : Memo :=
  filter (fun e => negb (args_eqb args (memo_args e))) m.

Definition memo_get (now : float) (m : Memo)
  (args : Z * float * float * Quality) : option (list Trajectory) * Memo :=
  match find (fun e => args_eqb args (memo_args e)) m with
  | Some e =>
      if expired now e then (None, memo_drop args m)
      else (Some (memo_value e), m)
  | None => (None, m)
  end.

Definition memo_put (now : float) (m : Memo)
  (args : Z * float * float * Quality) (v : list Trajectory) : Memo :=
  {| memo_args := args; memo_value := v; memo_created := now |}
  :: memo_drop args m.

(** The clock readings of one run: [time.time()] in [should_recompute]
    (line 133), the decorator's clock at the call of line 157, and
    [time.time()] after the computation (line 166). *)
Record Clock := {
  t_sched : float;
  t_memo : float;
  t_done : float
}.

Inductive CacheStatus := StatusCached | StatusFresh.

(** What the page shows below the controls: the plot with its metrics
    (number of trajectories, "Cache Status"), or the warning of line 260. *)
Inductive Display :=
| Metrics (shown : nat) (status : CacheStatus)
| Warning.

(** Which arm of lines 154-173 a run went through. *)
Inductive Branch :=
| Computed       (* lines 157-166 ran to the end *)
| ComputeFailed  (* the [except] of line 168 *)
| Reused.        (* line 173 *)

Record RunResult := {
  r_session : SessionState;
  r_memo : Memo;
  r_trajectories : option (list Trajectory);
  r_solver_calls : list (float * float);
  r_branch : Branch;
  r_display : Display
}.

(** The literal [0.5]. *)
Definition half : float := PyFloat.lit 4503599627370496 (-53).

Section Script.

Context {ext : Externals}.

Definition fingerprint (i : Inputs) : string :=
  create_params_hash (num_trajectories i) (epsilon i) (max_time i)
    (computation_quality i).

Definition current_args (i : Inputs) : Z * float * float * Quality :=
  (num_trajectories i, epsilon i, max_time i, computation_quality i).

(** [cached != params_hash], where [cached] may be [None]. *)
Definition hash_differs (cached : option string) (params_hash : string)
  : bool :=
  match cached with
  | Some h => negb (String.eqb h params_hash)
  | None => true
  end.

Definition time_elapsed (s : SessionState) (current_time : float) : float :=
  PyFloat.sub current_time (last_computation_time s).

Definition should_recompute (s : SessionState) (i : Inputs)
  (current_time : float) : bool :=
  let params_hash := fingerprint i in
  let params_changed := hash_differs (cached_params_hash s) params_hash in
  params_changed &&
  (PyFloat.ltb half (time_elapsed s current_time) || negb (auto_compute i)).

Definition should_compute (s : SessionState) (i : Inputs) (clk : Clock)
  : bool :=
  if negb (auto_compute i) then compute_button i
  else should_recompute s i (t_sched clk).

(** The decorated [solve_trajectories_optimized]: the stored batch on a hit,
    the function itself on a miss, whose result is stored unless it raises. *)
Definition cached_solve (m : Memo) (i : Inputs) (now : float)
  : exc (list Trajectory) * Memo * list (float * float) :=
  match memo_get now m (current_args i) with
  | (Some v, m') => (Ok v, m', [])
  | (None, m') =>
      match solve_trajectories_optimized (num_trajectories i) (epsilon i)
              (max_time i) (computation_quality i) with
      | Ok b =>
          (Ok (trajectories b),
           memo_put now m' (current_args i) (trajectories b),
           solver_calls b)
      | Raise e => (Raise e, m', [])
      end
  end.

(** [if trajectories:] and the "Cache Status" metric of line 250. *)
Definition display (trajs : option (list Trajectory)) (sc : bool) : Display :=
  match trajs with
  | Some (tr :: rest) =>
      Metrics (List.length (tr :: rest))
        (if negb sc then StatusCached else StatusFresh)
  | _ => Warning
  end.

(** The condition of line 154:
    [should_compute or st.session_state.cached_trajectories is None]. *)
Definition compute_due (s : SessionState) (i : Inputs) (clk : Clock) : bool :=
  should_compute s i clk ||
  match cached_trajectories s with
  | None => true
  | Some _ => false
  end.

(** Lines 131-260 on a session state and memo store. *)
Definition run (s : SessionState) (m : Memo) (i : Inputs) (clk : Clock)
  : RunResult :=
  let sc := should_compute s i clk in
  if compute_due s i clk then
    match cached_solve m i (t_memo clk) with
    | (Ok trajs, m', calls) =>
        {| r_session :=
             {| last_computation_time := t_done clk;
                cached_trajectories := Some trajs;
                cached_params_hash := Some (fingerprint i) |};
           r_memo := m';
           r_trajectories := Some trajs;
           r_solver_calls := calls;
           r_branch := Computed;
           r_display := display (Some trajs) sc |}
    | (Raise _, m', calls) =>
        {| r_session := s;
           r_memo := m';
           r_trajectories := Some [];
           r_solver_calls := calls;
           r_branch := ComputeFailed;
           r_display := display (Some []) sc |}
    end
  else
    {| r_session := s;
       r_memo := m;
       r_trajectories := cached_trajectories s;
       r_solver_calls := [];
       r_branch := Reused;
       r_display := display (cached_trajectories s) sc |}.

End Script.

(** A stand-in for the numerical collaborators, to run the script on: the
    pendulum stays where it starts and the result holds the first 12 of the
    requested time points; the solve fails when the driving amplitude is NaN
    and for starting velocities between 1 and 15. *)
Definition still_solver (c : IvpCall) : IvpOutcome :=
  let '(x0, v0) := ivp_y0 c in
  let fails :=
    match ivp_epsilon c with
    | S754_nan => true
    | _ => PyFloat.ltb (PyFloat.of_Z 1) v0 && PyFloat.ltb v0 (PyFloat.of_Z 15)
    end in
  let t := firstn 12 (ivp_t_eval c) in
  if fails then IvpRaise
  else IvpReturn {| sol_success := true;
                    sol_t := t;
                    sol_y := [map (fun _ => x0) t; map (fun _ => v0) t] |}.

Definition still : Externals :=
  {| np_linspace := fun start stop num endpoint =>
       map (fun k => PyFloat.add start (PyFloat.of_Z k))
         (indices (Z.to_nat num));
     np_sin := fun x => x;
     np_mod := fun x y => x;
     solve_ivp := still_solver |}.

(** The default sliders: 8 trajectories, amplitude 0.5, horizon 15,
    balanced quality, automatic mode. *)
Definition default_inputs : Inputs :=
  {| num_trajectories := 8;
     epsilon := half;
     max_time := PyFloat.of_Z 15;
     computation_quality := Balanced;
     auto_compute := true;
     compute_button := false |}.

Definition clock_at (t : Z) : Clock :=
  {| t_sched := PyFloat.of_Z t;
     t_memo := PyFloat.of_Z t;
     t_done := PyFloat.of_Z (t + 1) |}.

(** *** Scenarios *)

(** The first run of a session, on the default sliders at time 1000. *)
Definition first_run : RunResult :=
  @run still initial_session [] default_inputs (clock_at 1000).

(** The entry the first run leaves in the memo. *)
Definition first_entry : MemoEntry :=
  {| memo_args := current_args default_inputs;
     memo_value := match r_trajectories first_run with
                   | Some trajs => trajs
                   | None => []
                   end;
     memo_created := PyFloat.of_Z 1000 |}.

(** The default sliders with a NaN amplitude: every solve fails. *)
Definition nan_inputs : Inputs :=
  {| num_trajectories := 8;
     epsilon := S754_nan;
     max_time := PyFloat.of_Z 15;
     computation_quality := Balanced;
     auto_compute := true;
     compute_button := false |}.

(** The sliders moved to 12 trajectories and amplitude 0.501 in manual
    mode, the button not pressed. *)
Definition moved_inputs : Inputs :=
  {| num_trajectories := 12;
     epsilon := PyFloat.lit 4512606826625237 (-53);
     max_time := PyFloat.of_Z 15;
     computation_quality := Balanced;
     auto_compute := false;
     compute_button := false |}.

(** The count slider moved to 12 in automatic mode. *)
Definition more_inputs : Inputs :=
  {| num_trajectories := 12;
     epsilon := half;
     max_time := PyFloat.of_Z 15;
     computation_quality := Balanced;
     auto_compute := true;
     compute_button := false |}.

(** All clock readings at 1001.25. *)
Definition soon : Clock :=
  {| t_sched := PyFloat.lit 8807088138485760 (-43);
     t_memo := PyFloat.lit 8807088138485760 (-43);
     t_done := PyFloat.lit 8807088138485760 (-43) |}.

(** The default sliders in manual mode, the button pressed. *)
Definition pressed_inputs : Inputs :=
  {| num_trajectories := 8;
     epsilon := half;
     max_time := PyFloat.of_Z 15;
     computation_quality := Balanced;
     auto_compute := false;
     compute_button := true |}.

(** The amplitude slider at 0.501 in manual mode: the fingerprint is that
    of the default inputs, the arguments of the solve are not. *)
Definition nudged_inputs : Inputs :=
  {| num_trajectories := 8;
     epsilon := PyFloat.lit 4512606826625237 (-53);
     max_time := PyFloat.of_Z 15;
     computation_quality := Balanced;
     auto_compute := false;
     compute_button := true |}.

(** *** Further definitions: printed strings, sessions, the plot *)

(** No occurrence of the character [sep] in [s]. *)
Fixpoint free (sep : ascii) (s : string) : Prop :=
  match s with
  | EmptyString => True
  | String c rest => c <> sep /\ free sep rest
  end.

Definition is_digit (c : ascii) : bool :=
  ((48 <=? nat_of_ascii c) && (nat_of_ascii c <=? 57))%nat.

(** Only decimal digits in [s]. *)
Fixpoint digits_only (s : string) : Prop :=
  match s with
  | EmptyString => True
  | String c rest => is_digit c = true /\ digits_only rest
  end.

(** The magnitude of a rounded value is not negative. *)
Definition nonneg_units (r : Format.rounded) : Prop :=
  match r with
  | Format.RFin _ u => 0 <= u
  | _ => True
  end.

(** The digits of a finite rounded value: integer part, point, decimals. *)
Definition digits_of (d : nat) (u : Z) : string :=
  Format.str_int (u / 10 ^ Z.of_nat (S d)) ++
  String "." (Format.fixed_digits (S d) (u mod 10 ^ Z.of_nat (S d))).

(** [np.linspace] returns [num] samples. *)
Definition linspace_contract (ext : Externals) : Prop :=
  forall start stop num endpoint,
    List.length (np_linspace start stop num endpoint) = Z.to_nat num.

(** A session: the script is run once per interaction, each run on the
    state the previous one left. *)
Fixpoint run_all {ext : Externals} (s : SessionState) (m : Memo)
  (steps : list (Inputs * Clock)) : SessionState * Memo :=
  match steps with
  | [] => (s, m)
  | (i, clk) :: rest =>
      let r := run s m i clk in
      run_all (r_session r) (r_memo r) rest
  end.

(** The zero count with the other sliders at their defaults. *)
Definition zero_inputs : Inputs :=
  {| num_trajectories := 0;
     epsilon := half;
     max_time := PyFloat.of_Z 15;
     computation_quality := Balanced;
     auto_compute := true;
     compute_button := false |}.


(** [l[::step]] for a step of at least 1: the elements at positions
    [0, step, 2 * step, ...].  [skip] counts the elements to pass over
    before the next one is taken. *)
Fixpoint stride_from {A} (step skip : nat) (l : list A) : list A :=
  match l with
  | [] => []
  | x :: rest =>
      match skip with
      | O => x :: stride_from step (step - 1) rest
      | S k => stride_from step k rest
      end
  end.

Definition py_stride {A} (l : list A) (step : nat) : list A :=
  stride_from step 0 l.

(** Lines 194-202: the series of one trajectory as they are plotted.  The
    step is at least 1 where the source slices, since the length exceeds
    1000 there. *)
Definition plot_series (traj : Trajectory)
  : list float * list float * list float :=
  if (1000 <? List.length (traj_t traj))%nat then
    let step := (List.length (traj_t traj) / 1000)%nat in
    (py_stride (traj_t traj) step, py_stride (traj_x traj) step,
     py_stride (traj_v traj) step)
  else (traj_t traj, traj_x traj, traj_v traj).

(** What one trajectory puts on the phase portrait: the curve given to
    [ax2.plot] and the point given to [ax2.scatter]. *)
Record Curve := {
  curve_x : list float;
  curve_v : list float;
  curve_start : float * float
}.

(** The data [create_optimized_plots] draws, in drawing order. *)
Definition create_optimized_plots (traj_data : list Trajectory)
  (max_trajectories : Z) : list Curve :=
  let display_trajectories := py_slice traj_data 0 max_trajectories in
  map (fun traj =>
         let '(_, x_plot, v_plot) := plot_series traj in
         {| curve_x := x_plot; curve_v := v_plot;
            curve_start := traj_initial traj |})
      display_trajectories.

(** A trajectory of [n] samples at rest at the origin. *)
Definition flat_trajectory (n : nat) : Trajectory :=
  {| traj_t := map PyFloat.of_Z (indices n);
     traj_x := repeat PyFloat.zero n;
     traj_v := repeat PyFloat.zero n;
     traj_initial := (PyFloat.zero, PyFloat.zero) |}.

(* ================================================================== *)
(** * Properties *)

(** ** The fingerprint *)

Example format_amplitude_half :
  Format.format_fixed 2 half = "0.50"%string.
Proof. reflexivity. Qed.

Example format_rounds_half_to_even :
  Format.format_fixed 2 (PyFloat.lit 4503599627370496 (-55)) = "0.12"%string.
Proof. reflexivity. Qed.

Example default_params_str :
  params_str 8 half (PyFloat.of_Z 15) Balanced = "8_0.50_15.0_Balanced"%string.
Proof. reflexivity. Qed.

Example default_fingerprint :
  fingerprint default_inputs = "7f67489746514be5c817dc1026ebcb08"%string.
Proof. vm_compute. reflexivity. Qed.

(** The rounding is to a nearest multiple of the unit. *)
Lemma div_pow2_half_even_nearest (a k : Z) :
  0 < k ->
  0 <= a ->
  2 * Z.abs (a - Format.div_pow2_half_even a k * 2 ^ k) <= 2 ^ k.
Proof.
  intros Hk Ha. unfold Format.div_pow2_half_even.
  assert (Hp : 2 ^ k = 2 * 2 ^ (k - 1)).
  { replace k with (Z.succ (k - 1)) at 1 by lia. apply Z.pow_succ_r. lia. }
  assert (Hh : 0 < 2 ^ (k - 1)) by (apply Z.pow_pos_nonneg; lia).
  pose proof (Z.div_mod a (2 ^ k) ltac:(lia)) as Hdm.
  pose proof (Z.mod_pos_bound a (2 ^ k) ltac:(lia)) as Hr.
  set (q := a / 2 ^ k) in *. set (r := a mod 2 ^ k) in *.
  set (h := 2 ^ (k - 1)) in *. set (p := 2 ^ k) in *.
  destruct (Z.ltb_spec h r) as [Hlt | Hge]; cbn [orb].
  - nia.
  - destruct (Z.eqb_spec r h) as [Heq | Hne]; cbn [andb].
    + destruct (Z.odd q); nia.
    + nia.
Qed.

Lemma format_fixed_of_rounded (d : nat) (x y : float) :
  Format.round_decimals d x = Format.round_decimals d y ->
  Format.format_fixed d x = Format.format_fixed d y.
Proof. unfold Format.format_fixed. intros ->. reflexivity. Qed.

(** C1. Two parameter sets whose amplitudes round to the same value at two
    decimals, whose horizons round to the same value at one decimal, and
    whose count and quality level are the same, have the same fingerprint;
    in particular the fingerprint of one parameter set is the same at every
    call.  The rounded value carries the sign of the float, as the formatter
    prints it. *)
Theorem fingerprint_of_rounded_parameters
  (n1 n2 : Z) (e1 e2 t1 t2 : float) (q1 q2 : Quality) :
  Format.round_decimals 2 e1 = Format.round_decimals 2 e2 ->
  Format.round_decimals 1 t1 = Format.round_decimals 1 t2 ->
  n1 = n2 ->
  q1 = q2 ->
  create_params_hash n1 e1 t1 q1 = create_params_hash n2 e2 t2 q2.
Proof.
  intros He Ht -> ->.
  unfold create_params_hash, params_str.
  rewrite (format_fixed_of_rounded 2 e1 e2 He).
  rewrite (format_fixed_of_rounded 1 t1 t2 Ht).
  reflexivity.
Qed.

(** Amplitudes 0.5 and 0.501, horizons 15 and the next float above 15. *)
Lemma fingerprint_of_rounded_parameters_witness :
  create_params_hash 8 half (PyFloat.of_Z 15) Balanced =
  create_params_hash 8 (PyFloat.lit 4512606826625237 (-53))
    (PyFloat.lit 8444249301319681 (-49)) Balanced.
Proof.
  apply fingerprint_of_rounded_parameters; reflexivity.
Defined.

(** The sign survives the rounding: -0.001 is printed [-0.00]. *)
Example negative_zero_is_printed :
  Format.format_fixed 2 (S754_finite true 4611686018427388 (-62))
    = "-0.00"%string /\
  Format.format_fixed 2 (PyFloat.lit 4611686018427388 (-62))
    = "0.00"%string.
Proof. split; reflexivity. Qed.

(** ** The initial-condition generator *)

(** The float [0.1] is [0x1.999999999999ap-4], that is
    [7205759403792794 * 2^-56]: the quotient of 1 by 10 as binary64
    division rounds it, printed [0.10000000000000001] at 17 decimals. *)
Example one_tenth_in_binary64 :
  PyFloat.div (PyFloat.of_Z 1) (PyFloat.of_Z 10)
    = S754_finite false 7205759403792794 (-56) /\
  Format.format_fixed 17 (S754_finite false 7205759403792794 (-56))
    = "0.10000000000000001"%string /\
  Format.format_fixed 1 (S754_finite false 7205759403792794 (-56))
    = "0.1"%string.
Proof. repeat split; vm_compute; reflexivity. Qed.

(** C8. For a count of 1 the generator returns exactly one pair, and both
    of its components are the float 0.1 (the binary64 value
    [7205759403792794 * 2^-56], which is the rounded quotient 1 / 10),
    whatever the numerical collaborators are. *)
Theorem generate_one (ext : Externals) :
  generate_initial_conditions_optimized 1 =
    [(S754_finite false 7205759403792794 (-56),
      S754_finite false 7205759403792794 (-56))] /\
  generate_initial_conditions_optimized 1 =
    [(PyFloat.div (PyFloat.of_Z 1) (PyFloat.of_Z 10),
      PyFloat.div (PyFloat.of_Z 1) (PyFloat.of_Z 10))].
Proof. split; reflexivity. Qed.

(** C10. For every count at most 1, zero and the negative ones included, the
    generator returns exactly one pair, whose two components are the float
    0.1 ([7205759403792794 * 2^-56]): never the empty sequence, and the
    same result whatever the numerical collaborators do, since the guard
    returns before any of them is called. *)
Theorem generate_at_most_one (ext : Externals) (count : Z) :
  count <= 1 ->
  generate_initial_conditions_optimized count =
    [(S754_finite false 7205759403792794 (-56),
      S754_finite false 7205759403792794 (-56))].
Proof.
  intros H. unfold generate_initial_conditions_optimized.
  destruct (Z.leb_spec count 1) as [_ | Hgt]; [reflexivity | lia].
Qed.

Lemma generate_at_most_one_witness :
  @generate_initial_conditions_optimized still 0 =
    [(S754_finite false 7205759403792794 (-56),
      S754_finite false 7205759403792794 (-56))] /\
  @generate_initial_conditions_optimized still (-3) =
    [(S754_finite false 7205759403792794 (-56),
      S754_finite false 7205759403792794 (-56))].
Proof.
  split; apply generate_at_most_one; lia.
Defined.

(** ** Chunking *)

Section ListFacts.

Context {A : Type}.

Lemma fold_left_concat {B} (f : B -> A -> B) (ls : list (list A)) (b : B) :
  fold_left f (List.concat ls) b =
  fold_left (fun acc l => fold_left f l acc) ls b.
Proof.
  revert b. induction ls as [| l ls IH]; intros b; simpl.
  - reflexivity.
  - rewrite fold_left_app. apply IH.
Qed.

Lemma firstn_then_more (l : list A) (a b : nat) :
  (a <= b)%nat ->
  (firstn a l ++ firstn (b - a) (skipn a l))%list = firstn b l.
Proof.
  revert a b. induction l as [| x l IH]; intros a b Hab.
  - rewrite skipn_nil, !firstn_nil. reflexivity.
  - destruct a as [| a].
    + simpl. rewrite Nat.sub_0_r. reflexivity.
    + destruct b as [| b]; [lia |].
      simpl. f_equal. apply IH. lia.
Qed.

(** A slice with bounds [0 <= lo <= hi] is [hi - lo] elements after the
    first [lo]. *)
Lemma py_slice_nonneg (l : list A) (lo hi : Z) :
  0 <= lo <= hi ->
  py_slice l lo hi =
  firstn (Z.to_nat hi - Z.to_nat lo) (skipn (Z.to_nat lo) l).
Proof.
  intros [Hlo Hhi]. unfold py_slice, clip_index.
  destruct (Z.ltb_spec lo 0) as [? | _]; [lia |].
  destruct (Z.ltb_spec hi 0) as [? | _]; [lia |].
  set (len := List.length l).
  destruct (Z.le_gt_cases (Z.of_nat len) lo) as [Hbig | Hsmall].
  - (* the slice starts at or after the end *)
    rewrite (skipn_all2 l) by (fold len; lia).
    rewrite (skipn_all2 l) by (fold len; lia).
    rewrite !firstn_nil. reflexivity.
  - rewrite (Z.min_l lo) by lia.
    destruct (Z.le_gt_cases hi (Z.of_nat len)) as [Hin | Hout].
    + rewrite (Z.min_l hi) by lia. f_equal. lia.
    + rewrite (Z.min_r hi) by lia.
      rewrite !firstn_all2; [reflexivity | |];
        rewrite length_skipn; fold len; lia.
Qed.

End ListFacts.

Lemma chunk_starts_S (c : Z) (j : nat) :
  chunk_starts c (S j) = (chunk_starts c j ++ [Z.of_nat j * c])%list.
Proof.
  unfold chunk_starts, indices.
  rewrite seq_S, !map_app. reflexivity.
Qed.

(** The first [j] chunks, laid end to end, are the first [j * c] elements. *)
Lemma chunks_prefix {A} (l : list A) (n c : Z) (j : nat) :
  1 <= c ->
  (Z.of_nat j - 1) * c < n ->
  List.concat (map (fun start => py_slice l start (Z.min (start + c) n))
            (chunk_starts c j)) =
  firstn (Z.to_nat (Z.min (Z.of_nat j * c) n)) l.
Proof.
  intros Hc. induction j as [| j IH]; intros Hj.
  - replace (Z.to_nat (Z.min (Z.of_nat 0 * c) n)) with 0%nat by lia.
    reflexivity.
  - assert (Hlt : Z.of_nat j * c < n) by nia.
    assert (Hnext : Z.of_nat (S j) * c = Z.of_nat j * c + c) by nia.
    rewrite chunk_starts_S, map_app, concat_app, IH by nia.
    cbn [map List.concat]. rewrite app_nil_r, Hnext.
    assert (Hpos : 0 <= Z.of_nat j * c) by nia.
    set (p := Z.of_nat j * c) in *.
    rewrite (Z.min_l p) by lia.
    rewrite py_slice_nonneg by lia.
    apply firstn_then_more. lia.
Qed.

Lemma chunks_cover {A} (l : list A) (n c : Z) :
  1 <= c ->
  1 <= n ->
  Z.of_nat (List.length l) <= n ->
  List.concat (map (fun start => py_slice l start (Z.min (start + c) n))
            (chunk_starts c (Z.to_nat ((n - 0 + c - 1) / c)))) = l.
Proof.
  intros Hc Hn Hlen.
  set (k := (n - 0 + c - 1) / c).
  assert (Hk : (k - 1) * c < n /\ n <= k * c /\ 1 <= k).
  { subst k.
    pose proof (Z.div_mod (n - 0 + c - 1) c ltac:(lia)) as Hdm.
    pose proof (Z.mod_pos_bound (n - 0 + c - 1) c ltac:(lia)) as Hmod.
    split; [| split]; nia. }
  rewrite chunks_prefix by (rewrite ?Z2Nat.id; lia).
  rewrite Z2Nat.id by lia.
  rewrite Z.min_r by lia.
  apply firstn_all2. lia.
Qed.

Lemma fold_left_over_map {A B C} (f : C -> B -> C) (g : A -> B)
  (l : list A) (c : C) :
  fold_left f (map g l) c = fold_left (fun acc x => f acc (g x)) l c.
Proof.
  revert c. induction l as [| x l IH]; intros c; simpl.
  - reflexivity.
  - apply IH.
Qed.

Section ChunkedSolver.

Context {ext : Externals}.

(** The generator never returns more pairs than asked for. *)
Lemma generate_length_le (n : Z) :
  1 <= n ->
  Z.of_nat (List.length (generate_initial_conditions_optimized n)) <= n.
Proof.
  intros Hn. unfold generate_initial_conditions_optimized.
  destruct (Z.leb_spec n 1) as [Hle | Hgt].
  - simpl. lia.
  - rewrite length_combine, length_map.
    unfold indices. rewrite length_map, length_seq. lia.
Qed.

Lemma py_range_chunks (n c : Z) :
  1 <= c ->
  py_range 0 n c = Ok (chunk_starts c (Z.to_nat ((n - 0 + c - 1) / c))).
Proof.
  intros Hc. unfold py_range.
  destruct (Z.eqb_spec c 0) as [? | _]; [lia |].
  destruct (Z.ltb_spec 0 c) as [_ | ?]; [reflexivity | lia].
Qed.

(** Running the inner loop chunk after chunk is running it once over the
    whole list of initial conditions. *)
Lemma chunk_loops_are_one_loop (eps T : float) (qs : QualitySetting)
  (t_eval : list float) (ics : list (float * float)) (n c : Z) (acc : Batch) :
  1 <= c ->
  1 <= n ->
  Z.of_nat (List.length ics) <= n ->
  fold_left (chunk_loop eps T qs t_eval ics n c)
    (chunk_starts c (Z.to_nat ((n - 0 + c - 1) / c))) acc =
  fold_left (loop_body eps T qs t_eval) ics acc.
Proof.
  intros Hc Hn Hlen.
  rewrite <- (chunks_cover ics n c Hc Hn Hlen) at 2.
  rewrite fold_left_concat, fold_left_over_map.
  reflexivity.
Qed.

Lemma chunked_is_unchunked (c n : Z) (eps T : float) (q : Quality) :
  1 <= c ->
  1 <= n ->
  solve_trajectories_chunked c n eps T q =
  solve_trajectories_unchunked n eps T q.
Proof.
  intros Hc Hn.
  unfold solve_trajectories_chunked, solve_trajectories_unchunked.
  destruct (num_points T (quality_settings q)) as [k | e]; [| reflexivity].
  cbn [bind]. rewrite py_range_chunks by exact Hc. cbn [bind].
  f_equal. apply chunk_loops_are_one_loop; auto using generate_length_le.
Qed.

End ChunkedSolver.

(** C7. For every count of at least one trajectory, every amplitude, horizon
    and quality level, the chunked loop of the source returns what the loop
    without chunks returns: the same trajectories in the same order, after
    the same solver invocations, or the same exception.  The same holds for
    every positive chunk size. *)
Theorem chunking_is_transparent (ext : Externals)
  (n : Z) (eps T : float) (q : Quality) :
  1 <= n ->
  solve_trajectories_optimized n eps T q =
    solve_trajectories_unchunked n eps T q /\
  forall c, 1 <= c ->
    solve_trajectories_chunked c n eps T q =
    solve_trajectories_unchunked n eps T q.
Proof.
  intros Hn. split.
  - unfold solve_trajectories_optimized.
    apply chunked_is_unchunked; lia.
  - intros c Hc. apply chunked_is_unchunked; assumption.
Qed.

(** 25 trajectories, solved in chunks of 10, 10 and 5. *)
Lemma chunking_is_transparent_witness :
  @solve_trajectories_optimized still 25 half (PyFloat.of_Z 15) Balanced =
  @solve_trajectories_unchunked still 25 half (PyFloat.of_Z 15) Balanced.
Proof.
  assert (H : 1 <= 25) by lia.
  exact (proj1 (chunking_is_transparent still 25 half (PyFloat.of_Z 15)
                  Balanced H)).
Defined.

Example three_chunks_for_25 :
  py_range 0 25 (Z.min 10 25) = Ok [0; 10; 20] /\
  py_slice [1; 2; 3; 4; 5] 3 (Z.min (3 + 10) 25) = [4; 5].
Proof. split; reflexivity. Qed.

(** Outside the domain of the parameter set (the slider starts at 1) the
    chunk size [min(10, 0)] is a zero step for [range]. *)
Example zero_count_is_a_zero_step (ext : Externals) :
  solve_trajectories_optimized 0 half (PyFloat.of_Z 15) Balanced =
  Raise ValueError.
Proof. reflexivity. Qed.

(** ** What the batch keeps and what it drops *)

Section BatchContents.

Context {ext : Externals}.

Variables (eps T : float) (qs : QualitySetting) (t_eval : list float).

Lemma stored_app (l1 l2 : list (float * float)) :
  stored eps T qs t_eval (l1 ++ l2) =
  (stored eps T qs t_eval l1 ++ stored eps T qs t_eval l2)%list.
Proof. unfold stored. apply flat_map_app. Qed.

Lemma loop_body_fold (ics : list (float * float)) (acc : Batch) :
  fold_left (loop_body eps T qs t_eval) ics acc =
  {| trajectories := trajectories acc ++ stored eps T qs t_eval ics;
     solver_calls := solver_calls acc ++ ics |}.
Proof.
  revert acc. induction ics as [| y0 ics IH]; intros acc.
  - simpl. rewrite !app_nil_r. destruct acc; reflexivity.
  - cbn [fold_left]. rewrite IH. unfold loop_body at 1 2.
    cbn [trajectories solver_calls].
    change (y0 :: ics) with ([y0] ++ ics)%list.
    rewrite stored_app, !app_assoc.
    unfold stored at 2. cbn [flat_map]. rewrite app_nil_r.
    destruct (solve_one eps T qs t_eval y0); rewrite ?app_nil_r; reflexivity.
Qed.

Lemma batch_inv_loop (ics : list (float * float)) (acc : Batch) :
  batch_inv eps T qs t_eval acc ->
  batch_inv eps T qs t_eval (fold_left (loop_body eps T qs t_eval) ics acc).
Proof.
  unfold batch_inv. intros H. rewrite loop_body_fold.
  cbn [trajectories solver_calls]. rewrite stored_app, H. reflexivity.
Qed.

Lemma batch_inv_chunks (ics : list (float * float)) (n c : Z)
  (starts : list Z) (acc : Batch) :
  batch_inv eps T qs t_eval acc ->
  batch_inv eps T qs t_eval
    (fold_left (chunk_loop eps T qs t_eval ics n c) starts acc).
Proof.
  revert acc. induction starts as [| s starts IH]; intros acc H.
  - exact H.
  - cbn [fold_left]. apply IH. unfold chunk_loop. apply batch_inv_loop, H.
Qed.

Lemma stored_length (calls : list (float * float)) :
  (List.length (stored eps T qs t_eval calls) +
   List.length (filter (failing eps T qs t_eval) calls) =
   List.length calls)%nat.
Proof.
  induction calls as [| y0 calls IH]; [reflexivity |].
  unfold stored, failing in *. cbn [flat_map filter].
  destruct (solve_one eps T qs t_eval y0); simpl; lia.
Qed.

(** A kept trajectory is a result that reported success with more than ten
    time points, taken apart as lines 119-124 do. *)
Lemma solve_one_some (y0 : float * float) (tr : Trajectory) :
  solve_one eps T qs t_eval y0 = Some tr ->
  exists sol,
    solve_ivp (ivp_call eps T qs t_eval y0) = IvpReturn sol /\
    sol_success sol = true /\
    (10 < List.length (sol_t sol))%nat /\
    traj_t tr = sol_t sol /\
    nth_error (sol_y sol) 0 = Some (traj_x tr) /\
    nth_error (sol_y sol) 1 = Some (traj_v tr) /\
    traj_initial tr = y0.
Proof.
  unfold solve_one.
  destruct (solve_ivp _) as [| sol]; [discriminate |].
  destruct (sol_success sol) eqn:Hs; [| discriminate].
  destruct (Nat.ltb_spec 10 (List.length (sol_t sol))) as [Hlen | ?];
    [| discriminate].
  cbn [andb].
  destruct (nth_error (sol_y sol) 0) as [x |] eqn:Hx; [| discriminate].
  destruct (nth_error (sol_y sol) 1) as [v |] eqn:Hv; [| discriminate].
  intros [= <-]. exists sol. cbn. auto 10.
Qed.

(** A raised exception, a reported failure and a result of ten time points
    or fewer all leave nothing. *)
Lemma solve_one_none (y0 : float * float) :
  (solve_ivp (ivp_call eps T qs t_eval y0) = IvpRaise \/
   exists sol, solve_ivp (ivp_call eps T qs t_eval y0) = IvpReturn sol /\
               (sol_success sol = false \/
                (List.length (sol_t sol) <= 10)%nat)) ->
  solve_one eps T qs t_eval y0 = None.
Proof.
  unfold solve_one. intros [-> | (sol & -> & [Hs | Hlen])].
  - reflexivity.
  - rewrite Hs. reflexivity.
  - destruct (Nat.ltb_spec 10 (List.length (sol_t sol))); [lia |].
    rewrite andb_false_r. reflexivity.
Qed.

Lemma in_stored (tr : Trajectory) (calls : list (float * float)) :
  In tr (stored eps T qs t_eval calls) ->
  exists y0, In y0 calls /\ solve_one eps T qs t_eval y0 = Some tr.
Proof.
  unfold stored. rewrite in_flat_map. intros (y0 & Hin & Htr).
  exists y0. split; [exact Hin |].
  destruct (solve_one eps T qs t_eval y0) as [tr' |]; [| contradiction].
  destruct Htr as [-> | []]. reflexivity.
Qed.




End BatchContents.

Lemma chunked_batch_inv (ext : Externals) (c n : Z) (eps T : float)
  (q : Quality) (b : Batch) :
  solve_trajectories_chunked c n eps T q = Ok b ->
  exists k,
    num_points T (quality_settings q) = Ok k /\
    batch_inv eps T (quality_settings q)
      (np_linspace PyFloat.zero T k true) b.
Proof.
  unfold solve_trajectories_chunked.
  destruct (num_points T (quality_settings q)) as [k | e]; [| discriminate].
  cbn [bind].
  destruct (py_range 0 n c) as [starts | e]; [| discriminate].
  cbn [bind]. intros [= <-]. exists k. split; [reflexivity |].
  apply batch_inv_chunks. reflexivity.
Qed.

(** C4. Under SciPy's shape contract for the solver's result, every
    trajectory of a returned batch has its time points, positions and
    velocities of one length, and that length is more than 10; and every
    trajectory of the batch is a solver result that reported success with
    more than 10 time points, so a result that fails the threshold or
    reports failure is never stored. *)
Theorem stored_trajectories_are_well_formed (ext : Externals)
  (n : Z) (eps T : float) (q : Quality) (b : Batch) :
  solver_shape_contract ext ->
  solve_trajectories_optimized n eps T q = Ok b ->
  Forall well_formed (trajectories b) /\
  forall tr, In tr (trajectories b) ->
    exists call sol,
      ivp_y0 call = traj_initial tr /\
      solve_ivp call = IvpReturn sol /\
      sol_success sol = true /\
      (10 < List.length (sol_t sol))%nat /\
      traj_t tr = sol_t sol /\
      nth_error (sol_y sol) 0 = Some (traj_x tr) /\
      nth_error (sol_y sol) 1 = Some (traj_v tr).
Proof.
  intros Hshape Hret.
  apply chunked_batch_inv in Hret as (k & _ & Hinv).
  red in Hinv.
  assert (Hall : forall tr, In tr (trajectories b) ->
            exists call sol,
              ivp_y0 call = traj_initial tr /\
              solve_ivp call = IvpReturn sol /\
              sol_success sol = true /\
              (10 < List.length (sol_t sol))%nat /\
              traj_t tr = sol_t sol /\
              nth_error (sol_y sol) 0 = Some (traj_x tr) /\
              nth_error (sol_y sol) 1 = Some (traj_v tr)).
  { intros tr Hin. rewrite Hinv in Hin.
    apply in_stored in Hin as (y0 & _ & Hone).
    apply solve_one_some in Hone
      as (sol & Hcall & Hs & Hlen & Ht & Hx & Hv & Hy0).
    exists (ivp_call eps T (quality_settings q)
              (np_linspace PyFloat.zero T k true) y0), sol.
    cbn [ivp_y0 ivp_call]. auto 10. }
  split; [| exact Hall].
  apply Forall_forall. intros tr Hin.
  destruct (Hall tr Hin) as (call & sol & _ & Hcall & _ & Hlen & Ht & Hx & Hv).
  pose proof (Hshape call sol Hcall) as Hrows.
  unfold ode_shape in Hrows. rewrite Forall_forall in Hrows.
  apply nth_error_In in Hx, Hv.
  apply Hrows in Hx, Hv.
  unfold well_formed. rewrite Ht. repeat split; congruence.
Qed.

Lemma still_shape : solver_shape_contract still.
Proof.
  intros call sol. cbn. unfold still_solver.
  destruct (ivp_y0 call) as [x0 v0].
  destruct (match ivp_epsilon call with S754_nan => true | _ => _ end);
    [discriminate |].
  intros [= <-]. unfold ode_shape. cbn.
  repeat constructor; apply length_map.
Qed.


(** Two trajectories over a horizon of 1. *)
Lemma stored_trajectories_are_well_formed_witness :
  match @solve_trajectories_optimized still 2 half (PyFloat.of_Z 1)
          Balanced with
  | Ok b => Forall well_formed (trajectories b)
  | Raise _ => False
  end.
Proof.
  destruct (@solve_trajectories_optimized still 2 half (PyFloat.of_Z 1)
              Balanced) as [b | e] eqn:E.
  - exact (proj1 (stored_trajectories_are_well_formed still 2 half
                    (PyFloat.of_Z 1) Balanced b still_shape E)).
  - vm_compute in E. discriminate E.
Defined.

(** ** One run of the script *)

Section RunFacts.

Context {ext : Externals}.

Lemma solve_returns (n k : Z) (eps T : float) (q : Quality) :
  1 <= n ->
  num_points T (quality_settings q) = Ok k ->
  solve_trajectories_optimized n eps T q =
  Ok {| trajectories :=
          stored eps T (quality_settings q) (np_linspace PyFloat.zero T k true)
            (generate_initial_conditions_optimized n);
        solver_calls := generate_initial_conditions_optimized n |}.
Proof.
  intros Hn Hk.
  unfold solve_trajectories_optimized.
  rewrite chunked_is_unchunked by lia.
  unfold solve_trajectories_unchunked. rewrite Hk. cbn [bind].
  rewrite loop_body_fold. reflexivity.
Qed.

Lemma run_reuses (s : SessionState) (m : Memo) (i : Inputs) (clk : Clock) :
  compute_due s i clk = false ->
  run s m i clk =
  {| r_session := s;
     r_memo := m;
     r_trajectories := cached_trajectories s;
     r_solver_calls := [];
     r_branch := Reused;
     r_display := display (cached_trajectories s) (should_compute s i clk) |}.
Proof. unfold run. intros ->. reflexivity. Qed.

Lemma run_computes (s : SessionState) (m m' : Memo) (i : Inputs) (clk : Clock)
  (trajs : list Trajectory) (calls : list (float * float)) :
  compute_due s i clk = true ->
  cached_solve m i (t_memo clk) = (Ok trajs, m', calls) ->
  run s m i clk =
  {| r_session :=
       {| last_computation_time := t_done clk;
          cached_trajectories := Some trajs;
          cached_params_hash := Some (fingerprint i) |};
     r_memo := m';
     r_trajectories := Some trajs;
     r_solver_calls := calls;
     r_branch := Computed;
     r_display := display (Some trajs) (should_compute s i clk) |}.
Proof. unfold run. intros -> ->. reflexivity. Qed.

Lemma cached_solve_miss (m : Memo) (i : Inputs) (now : float) (k : Z) :
  1 <= num_trajectories i ->
  num_points (max_time i) (quality_settings (computation_quality i)) = Ok k ->
  fst (memo_get now m (current_args i)) = None ->
  let ics := generate_initial_conditions_optimized (num_trajectories i) in
  let trajs :=
    stored (epsilon i) (max_time i) (quality_settings (computation_quality i))
      (np_linspace PyFloat.zero (max_time i) k true) ics in
  cached_solve m i now =
  (Ok trajs,
   memo_put now (snd (memo_get now m (current_args i))) (current_args i) trajs,
   ics).
Proof.
  intros Hn Hk Hmiss. unfold cached_solve.
  destruct (memo_get now m (current_args i)) as [[v |] m'];
    [discriminate Hmiss |].
  rewrite (solve_returns _ k) by assumption. reflexivity.
Qed.



Lemma hash_differs_same (h : string) : hash_differs (Some h) h = false.
Proof. unfold hash_differs. rewrite String.eqb_refl. reflexivity. Qed.

End RunFacts.




Section Scheduler.

Context {ext : Externals}.

Lemma all_failing_stores_nothing (eps T : float) (qs : QualitySetting)
  (t_eval : list float) (ics : list (float * float)) :
  forallb (failing eps T qs t_eval) ics = true ->
  stored eps T qs t_eval ics = [].
Proof.
  induction ics as [| y0 ics IH]; [reflexivity |].
  cbn [forallb]. rewrite andb_true_iff. intros [Hy0 Hrest].
  unfold stored, failing in *. cbn [flat_map].
  destruct (solve_one eps T qs t_eval y0); [discriminate |].
  apply IH, Hrest.
Qed.

(** In automatic mode an unchanged fingerprint never asks for a computation. *)
Lemma same_fingerprint_no_recompute (s : SessionState) (i : Inputs)
  (clk : Clock) :
  auto_compute i = true ->
  cached_params_hash s = Some (fingerprint i) ->
  should_compute s i clk = false.
Proof.
  intros Hauto Hhash. unfold should_compute, should_recompute.
  rewrite Hauto, Hhash, hash_differs_same. reflexivity.
Qed.

Lemma manual_should_compute (s : SessionState) (i : Inputs) (clk : Clock) :
  auto_compute i = false ->
  should_compute s i clk = compute_button i.
Proof. unfold should_compute. intros ->. reflexivity. Qed.

Lemma auto_should_compute (s : SessionState) (i : Inputs) (clk : Clock) :
  auto_compute i = true ->
  hash_differs (cached_params_hash s) (fingerprint i) = true ->
  should_compute s i clk = PyFloat.ltb half (time_elapsed s (t_sched clk)).
Proof.
  unfold should_compute, should_recompute. intros -> ->.
  cbn [negb andb]. apply orb_false_r.
Qed.

Lemma compute_due_cached (s : SessionState) (i : Inputs) (clk : Clock)
  (b : list Trajectory) :
  cached_trajectories s = Some b ->
  compute_due s i clk = should_compute s i clk.
Proof. unfold compute_due. intros ->. apply orb_false_r. Qed.

Lemma compute_due_empty (s : SessionState) (i : Inputs) (clk : Clock) :
  cached_trajectories s = None ->
  compute_due s i clk = true.
Proof. unfold compute_due. intros ->. apply orb_true_r. Qed.

(** A run whose computation is due goes through the computed arm or through
    the [except]. *)
Lemma run_due_not_reused (s : SessionState) (m : Memo) (i : Inputs)
  (clk : Clock) :
  compute_due s i clk = true ->
  r_branch (run s m i clk) <> Reused.
Proof.
  unfold run. intros ->.
  destruct (cached_solve m i (t_memo clk)) as [[[trajs | e] m'] calls];
    discriminate.
Qed.

(** When every solve fails, the call that misses the memo returns the empty
    batch. *)
Lemma all_failing_returns_empty (m : Memo) (i : Inputs) (now : float) (k : Z) :
  1 <= num_trajectories i ->
  num_points (max_time i) (quality_settings (computation_quality i)) = Ok k ->
  fst (memo_get now m (current_args i)) = None ->
  forallb (failing (epsilon i) (max_time i)
             (quality_settings (computation_quality i))
             (np_linspace PyFloat.zero (max_time i) k true))
    (generate_initial_conditions_optimized (num_trajectories i)) = true ->
  fst (fst (cached_solve m i now)) = Ok [].
Proof.
  intros Hn Hk Hmiss Hall.
  rewrite (cached_solve_miss m i now k Hn Hk Hmiss). cbn [fst].
  rewrite all_failing_stores_nothing by exact Hall. reflexivity.
Qed.

(** After a run on a count of at least 1 and a horizon whose number of
    points is defined, the session holds a batch. *)
Lemma run_leaves_a_batch (s : SessionState) (m : Memo) (i : Inputs)
  (clk : Clock) (k : Z) :
  1 <= num_trajectories i ->
  num_points (max_time i) (quality_settings (computation_quality i)) = Ok k ->
  exists b, cached_trajectories (r_session (run s m i clk)) = Some b.
Proof.
  intros Hn Hk.
  destruct (compute_due s i clk) eqn:Hdue.
  - destruct (fst (memo_get (t_memo clk) m (current_args i)))
      as [v |] eqn:Hget.
    + unfold run, cached_solve. rewrite Hdue.
      destruct (memo_get (t_memo clk) m (current_args i)) as [[v' |] m'];
        [| discriminate Hget].
      eexists. reflexivity.
    + erewrite run_computes
        by (try exact Hdue; apply (cached_solve_miss m i _ k Hn Hk Hget)).
      eexists. reflexivity.
  - rewrite run_reuses by exact Hdue. cbn [r_session].
    unfold compute_due in Hdue. apply orb_false_iff in Hdue as [_ Hsome].
    destruct (cached_trajectories s) as [b |]; [| discriminate Hsome].
    exists b. reflexivity.
Qed.

End Scheduler.

(** C6. When a computation returns the empty batch (all trajectories
    failed), the run emits the empty batch, the page shows the warning, and
    the session stores the empty batch, the fingerprint and the current time
    as [last_computation_time]; a later run in automatic mode with the same
    fingerprint reuses the empty batch and does not invoke the solver. *)
Theorem total_failure_advances_the_clock (ext : Externals)
  (s : SessionState) (m m' : Memo) (i : Inputs) (clk : Clock)
  (calls : list (float * float)) :
  compute_due s i clk = true ->
  cached_solve m i (t_memo clk) = (Ok [], m', calls) ->
  let r := run s m i clk in
  r_trajectories r = Some [] /\
  r_display r = Warning /\
  last_computation_time (r_session r) = t_done clk /\
  cached_trajectories (r_session r) = Some [] /\
  cached_params_hash (r_session r) = Some (fingerprint i) /\
  forall i' clk',
    auto_compute i' = true ->
    fingerprint i' = fingerprint i ->
    let r' := run (r_session r) (r_memo r) i' clk' in
    r_branch r' = Reused /\ r_solver_calls r' = [] /\
    r_trajectories r' = Some [].
Proof.
  intros Hdue Hsolve r. subst r.
  rewrite (run_computes s m m' i clk [] calls Hdue Hsolve).
  cbn [r_trajectories r_display r_session r_memo last_computation_time
       cached_trajectories cached_params_hash display].
  repeat split.
  all: intros; rewrite run_reuses; try reflexivity.
  all: erewrite compute_due_cached by reflexivity.
  all: apply same_fingerprint_no_recompute; [assumption |].
  all: cbn [cached_params_hash]; congruence.
Qed.

Lemma total_failure_advances_the_clock_witness :
  let r := @run still initial_session [] nan_inputs (clock_at 1000) in
  r_display r = Warning /\
  last_computation_time (r_session r) = PyFloat.of_Z 1001 /\
  r_branch (@run still (r_session r) (r_memo r) nan_inputs (clock_at 1002))
    = Reused.
Proof.
  assert (Hdue : @compute_due initial_session nan_inputs (clock_at 1000) = true)
    by reflexivity.
  assert (Hsolve : { res | @cached_solve still [] nan_inputs
                             (t_memo (clock_at 1000)) =
                           (Ok [], fst res, snd res) }).
  { eexists (_, _). vm_compute. reflexivity. }
  destruct Hsolve as [[m' calls] Hsolve].
  destruct (total_failure_advances_the_clock still initial_session [] m'
              nan_inputs (clock_at 1000) calls Hdue Hsolve)
    as (_ & Hshow & Htime & _ & _ & Hnext).
  cbv zeta. split; [exact Hshow |]. split; [exact Htime |].
  exact (proj1 (Hnext nan_inputs (clock_at 1002) eq_refl eq_refl)).
Defined.

(** C9. In manual mode, with a batch in the session and no press of the
    button, a run computes nothing whatever the parameters have become: the
    solver is not invoked, the session state (cached trajectories, cached
    fingerprint, last computation time) and the memo store are unchanged,
    and the page shows the batch of the session. *)
Theorem manual_mode_waits_for_the_button (ext : Externals)
  (s : SessionState) (m : Memo) (i : Inputs) (clk : Clock)
  (b : list Trajectory) :
  auto_compute i = false ->
  compute_button i = false ->
  cached_trajectories s = Some b ->
  let r := run s m i clk in
  r_solver_calls r = [] /\
  r_session r = s /\
  r_memo r = m /\
  r_branch r = Reused /\
  r_trajectories r = Some b /\
  r_display r = display (Some b) false.
Proof.
  intros Hauto Hbutton Hcached r. subst r.
  assert (Hsc : should_compute s i clk = false)
    by (rewrite manual_should_compute; assumption).
  rewrite run_reuses
    by (erewrite compute_due_cached by eassumption; exact Hsc).
  cbn [r_solver_calls r_session r_memo r_branch r_trajectories r_display].
  rewrite Hcached, Hsc. auto 10.
Qed.

Lemma manual_mode_waits_for_the_button_witness :
  let r := @run still (r_session first_run) (r_memo first_run)
             moved_inputs (clock_at 2000) in
  r_solver_calls r = [] /\ r_session r = r_session first_run.
Proof.
  assert (Hb : { b | cached_trajectories (r_session first_run) = Some b }).
  { eexists. vm_compute. reflexivity. }
  destruct Hb as [b Hb].
  destruct (manual_mode_waits_for_the_button still (r_session first_run)
              (r_memo first_run) moved_inputs (clock_at 2000) b
              eq_refl eq_refl Hb)
    as (Hcalls & Hsession & _).
  cbv zeta. split; [exact Hcalls | exact Hsession].
Defined.

(** ** The debounce gate and the manual trigger *)

(** C2, as stated, fails on the source: the condition of line 154 also
    starts a computation when nothing is cached yet.  On the first load in
    manual mode the script computes although the button was not pressed. *)
Lemma manual_mode_first_load_computes :
  ~ (forall (ext : Externals) (s : SessionState) (m : Memo) (i : Inputs)
            (clk : Clock),
       let r := run s m i clk in
       (auto_compute i = true ->
        hash_differs (cached_params_hash s) (fingerprint i) = true ->
        PyFloat.ltb half (time_elapsed s (t_sched clk)) = false ->
        r_branch r = Reused /\ r_trajectories r = cached_trajectories s) /\
       (auto_compute i = false ->
        r_branch r <> Reused ->
        compute_button i = true)).
Proof.
  intros H.
  destruct (H still initial_session []
              {| num_trajectories := 8;
                 epsilon := half;
                 max_time := PyFloat.of_Z 15;
                 computation_quality := Balanced;
                 auto_compute := false;
                 compute_button := false |}
              (clock_at 1000)) as [_ Hmanual].
  cbn [auto_compute compute_button] in Hmanual.
  assert (Hfalse : false = true); [| discriminate Hfalse].
  apply Hmanual; [reflexivity |].
  vm_compute. discriminate.
Qed.

(** C2, amended.  With a batch in the session: in automatic mode a changed
    fingerprint is recomputed when more than 0.5 has elapsed since
    [last_computation_time], and otherwise the cached batch is reused, the
    session is unchanged and the solver is not invoked; in manual mode the
    run computes when the button was pressed and reuses the cached batch
    when it was not.  With nothing cached yet the run computes, whatever the
    mode, the elapsed time and the button. *)
Theorem debounce_gate (ext : Externals)
  (s : SessionState) (m : Memo) (i : Inputs) (clk : Clock) :
  let r := run s m i clk in
  let elapsed_enough := PyFloat.ltb half (time_elapsed s (t_sched clk)) in
  let reuses b :=
    r_branch r = Reused /\ r_trajectories r = Some b /\
    r_session r = s /\ r_memo r = m /\ r_solver_calls r = [] in
  (forall b,
     cached_trajectories s = Some b ->
     auto_compute i = true ->
     hash_differs (cached_params_hash s) (fingerprint i) = true ->
     (elapsed_enough = false -> reuses b) /\
     (elapsed_enough = true -> r_branch r <> Reused)) /\
  (forall b,
     cached_trajectories s = Some b ->
     auto_compute i = false ->
     (compute_button i = false -> reuses b) /\
     (compute_button i = true -> r_branch r <> Reused)) /\
  (cached_trajectories s = None -> r_branch r <> Reused).
Proof.
  cbv zeta.
  assert (Hreuse : forall b,
            cached_trajectories s = Some b ->
            should_compute s i clk = false ->
            r_branch (run s m i clk) = Reused /\
            r_trajectories (run s m i clk) = Some b /\
            r_session (run s m i clk) = s /\
            r_memo (run s m i clk) = m /\
            r_solver_calls (run s m i clk) = []).
  { intros b Hb Hsc.
    rewrite run_reuses
      by (erewrite compute_due_cached by eassumption; exact Hsc).
    cbn. auto. }
  assert (Hcompute : forall b,
            cached_trajectories s = Some b ->
            should_compute s i clk = true ->
            r_branch (run s m i clk) <> Reused).
  { intros b Hb Hsc. apply run_due_not_reused.
    erewrite compute_due_cached by eassumption. exact Hsc. }
  split; [| split].
  - intros b Hb Hauto Hdiff.
    pose proof (auto_should_compute s i clk Hauto Hdiff) as Hsc.
    split; intros Helapsed; [apply Hreuse | apply (Hcompute b)];
      auto; congruence.
  - intros b Hb Hmanual.
    pose proof (manual_should_compute s i clk Hmanual) as Hsc.
    split; intros Hbutton; [apply Hreuse | apply (Hcompute b)];
      auto; congruence.
  - intros Hnone. apply run_due_not_reused, compute_due_empty, Hnone.
Qed.

(** A slider moved 0.25 after the first run has stored its batch is not
    recomputed; the same move 5 later is. *)
Lemma debounce_gate_witness :
  r_branch (@run still (r_session first_run) (r_memo first_run)
              more_inputs soon) = Reused /\
  r_branch (@run still (r_session first_run) (r_memo first_run)
              more_inputs (clock_at 1006)) <> Reused.
Proof.
  assert (Hb : { b | cached_trajectories (r_session first_run) = Some b }).
  { eexists. vm_compute. reflexivity. }
  destruct Hb as [b Hb].
  assert (Hauto : auto_compute more_inputs = true) by reflexivity.
  assert (Hdiff : hash_differs (cached_params_hash (r_session first_run))
                    (fingerprint more_inputs) = true)
    by (vm_compute; reflexivity).
  split.
  - apply (proj1 (debounce_gate still (r_session first_run)
                    (r_memo first_run) more_inputs soon) b Hb Hauto Hdiff).
    vm_compute. reflexivity.
  - apply (proj1 (debounce_gate still (r_session first_run)
                    (r_memo first_run) more_inputs (clock_at 1006))
             b Hb Hauto Hdiff).
    vm_compute. reflexivity.
Defined.

Example first_run_memo : r_memo first_run = [first_entry].
Proof. vm_compute. reflexivity. Qed.

Example nudged_fingerprint :
  fingerprint nudged_inputs = fingerprint default_inputs.
Proof. vm_compute. reflexivity. Qed.




(** The entry of the first run, created at 1000, is served up to 2799 and
    is gone at 2800: a press of the button with the sliders untouched, 1800
    seconds after the first run, solves all 8 initial conditions again. *)
Example memo_entry_expires_at_its_time_to_live :
  expired (PyFloat.of_Z 2799) first_entry = false /\
  expired (PyFloat.of_Z 2800) first_entry = true /\
  r_solver_calls
    (@run still (r_session first_run) (r_memo first_run) pressed_inputs
       (clock_at 2799)) = [] /\
  List.length
    (r_solver_calls
       (@run still (r_session first_run) (r_memo first_run) pressed_inputs
          (clock_at 2800))) = 8%nat.
Proof. repeat split; vm_compute; reflexivity. Qed.

(* ================================================================== *)
(** * Further properties of the code *)

(** ** The string that is hashed *)

Lemma digits_only_app (s t : string) :
  digits_only s -> digits_only t -> digits_only (s ++ t).
Proof.
  induction s as [| c s IH]; simpl; [auto | intros [Hc Hs] Ht; auto].
Qed.

Lemma free_app (sep : ascii) (s t : string) :
  free sep s -> free sep t -> free sep (s ++ t).
Proof.
  induction s as [| c s IH]; simpl; [auto | intros [Hc Hs] Ht; auto].
Qed.

Lemma digits_only_free (sep : ascii) (s : string) :
  is_digit sep = false -> digits_only s -> free sep s.
Proof.
  intros Hsep. induction s as [| c s IH]; simpl; [auto |].
  intros [Hc Hs]. split; [| auto].
  intros ->. congruence.
Qed.

(** Two strings cut at the first occurrence of a separator agree piece by
    piece. *)
Lemma split_at_separator (sep : ascii) (s1 s2 r1 r2 : string) :
  free sep s1 -> free sep s2 ->
  s1 ++ String sep r1 = s2 ++ String sep r2 ->
  s1 = s2 /\ r1 = r2.
Proof.
  revert s2. induction s1 as [| c s1 IH]; intros [| c2 s2]; simpl.
  - intros _ _ [= ->]. auto.
  - intros _ [Hc _] [= <- _]. congruence.
  - intros [Hc _] _ [= -> _]. congruence.
  - intros [_ H1] [_ H2] [= -> Hrest].
    destruct (IH s2 H1 H2 Hrest) as [-> ->]. auto.
Qed.

Lemma uint_digits_only (d : Decimal.uint) :
  digits_only (NilEmpty.string_of_uint d).
Proof.
  induction d; simpl; auto.
Qed.

Lemma nilzero_digits_only (d : Decimal.uint) :
  digits_only (NilZero.string_of_uint d).
Proof.
  destruct d; try apply uint_digits_only. simpl. auto.
Qed.

Lemma str_int_free (sep : ascii) (n : Z) :
  is_digit sep = false -> sep <> "-"%char ->
  free sep (Format.str_int n).
Proof.
  intros Hsep Hminus. unfold Format.str_int, NilZero.string_of_int.
  destruct (Z.to_int n) as [d | d].
  - apply digits_only_free, nilzero_digits_only. exact Hsep.
  - simpl. split; [congruence |].
    apply digits_only_free, nilzero_digits_only. exact Hsep.
Qed.

(** A non-negative integer prints as a non-empty string of digits. *)
Lemma str_int_nonneg (n : Z) :
  0 <= n ->
  exists c rest,
    Format.str_int n = String c rest /\ is_digit c = true /\ digits_only rest.
Proof.
  intros Hn. unfold Format.str_int.
  assert (Hpos : exists d, Z.to_int n = Decimal.Pos d /\ d <> Decimal.Nil).
  { destruct n as [| p | p]; [| | lia].
    - exists Decimal.zero. split; [reflexivity | discriminate].
    - exists (Pos.to_uint p). split; [reflexivity |].
      apply DecimalPos.Unsigned.to_uint_nonnil. }
  destruct Hpos as (d & -> & Hd). simpl.
  pose proof (nilzero_digits_only d) as Hdig.
  destruct d; try congruence; simpl in *; destruct Hdig; eauto.
Qed.

Lemma to_int_not_nil (n : Z) :
  Z.to_int n <> Decimal.Pos Decimal.Nil /\
  Z.to_int n <> Decimal.Neg Decimal.Nil.
Proof.
  split; intros H; pose proof (DecimalZ.of_to n) as Hn; rewrite H in Hn;
    simpl in Hn; subst n; discriminate H.
Qed.

Lemma str_int_inj (n1 n2 : Z) :
  Format.str_int n1 = Format.str_int n2 -> n1 = n2.
Proof.
  unfold Format.str_int. intros H.
  apply (f_equal NilZero.int_of_string) in H.
  destruct (to_int_not_nil n1) as [Hp1 Hn1], (to_int_not_nil n2) as [Hp2 Hn2].
  rewrite !NilZero.isi in H by assumption.
  injection H as H. apply DecimalZ.to_int_inj, H.
Qed.

Lemma fixed_digits_digits (d : nat) (k : Z) :
  digits_only (Format.fixed_digits d k).
Proof.
  revert k. induction d as [| d IH]; intros k; simpl; [exact I |].
  apply digits_only_app; [apply IH |].
  simpl. split; [| exact I].
  unfold Format.digit_char, is_digit.
  pose proof (Z.mod_pos_bound k 10 ltac:(lia)) as Hk.
  rewrite nat_ascii_embedding by lia.
  apply andb_true_iff. split; apply Nat.leb_le; lia.
Qed.

Lemma string_length_app (s t : string) :
  String.length (s ++ t) = (String.length s + String.length t)%nat.
Proof.
  induction s as [| c s IH]; simpl; [reflexivity | rewrite IH; reflexivity].
Qed.

Lemma fixed_digits_length (d : nat) (k : Z) :
  String.length (Format.fixed_digits d k) = d.
Proof.
  revert k. induction d as [| d IH]; intros k; simpl; [reflexivity |].
  rewrite string_length_app, IH. simpl. lia.
Qed.

Lemma append_last_inj (s1 s2 : string) (c1 c2 : ascii) :
  String.length s1 = String.length s2 ->
  s1 ++ String c1 "" = s2 ++ String c2 "" ->
  s1 = s2 /\ c1 = c2.
Proof.
  revert s2. induction s1 as [| a s1 IH]; intros [| b s2]; simpl;
    try discriminate.
  - intros _ [= ->]. auto.
  - intros [= Hlen] [= -> Hrest].
    destruct (IH s2 Hlen Hrest) as [-> ->]. auto.
Qed.

Lemma digit_char_inj (k1 k2 : Z) :
  Format.digit_char k1 = Format.digit_char k2 -> k1 mod 10 = k2 mod 10.
Proof.
  unfold Format.digit_char. intros H.
  pose proof (Z.mod_pos_bound k1 10 ltac:(lia)) as H1.
  pose proof (Z.mod_pos_bound k2 10 ltac:(lia)) as H2.
  apply (f_equal nat_of_ascii) in H.
  rewrite !nat_ascii_embedding in H by lia. lia.
Qed.

Lemma fixed_digits_inj (d : nat) (k1 k2 : Z) :
  0 <= k1 < 10 ^ Z.of_nat d ->
  0 <= k2 < 10 ^ Z.of_nat d ->
  Format.fixed_digits d k1 = Format.fixed_digits d k2 ->
  k1 = k2.
Proof.
  revert k1 k2. induction d as [| d IH]; intros k1 k2 H1 H2.
  - simpl in H1, H2. lia.
  - rewrite Nat2Z.inj_succ, Z.pow_succ_r in H1, H2 by lia.
    simpl. intros H.
    apply append_last_inj in H as [Hhigh Hlow];
      [| rewrite !fixed_digits_length; reflexivity].
    apply digit_char_inj in Hlow.
    apply IH in Hhigh.
    + rewrite (Z.div_mod k1 10), (Z.div_mod k2 10) by lia. congruence.
    + split; [apply Z.div_pos; lia | apply Z.div_lt_upper_bound; lia].
    + split; [apply Z.div_pos; lia | apply Z.div_lt_upper_bound; lia].
Qed.

Lemma round_decimals_nonneg (d : nat) (x : float) :
  nonneg_units (Format.round_decimals d x).
Proof.
  destruct x as [s | s | | s m e];
    cbn [Format.round_decimals nonneg_units]; try lia; try exact I.
  assert (Hten : 0 < 10 ^ Z.of_nat d) by (apply Z.pow_pos_nonneg; lia).
  assert (Ha : 0 <= Z.pos m * 10 ^ Z.of_nat d) by nia.
  destruct (Z.leb_spec 0 e) as [He | He].
  - assert (Hpow : 0 < 2 ^ e) by (apply Z.pow_pos_nonneg; lia). nia.
  - unfold Format.div_pow2_half_even.
    assert (Hpow : 0 < 2 ^ (- e)) by (apply Z.pow_pos_nonneg; lia).
    assert (Hq : 0 <= Z.pos m * 10 ^ Z.of_nat d / 2 ^ (- e))
      by (apply Z.div_pos; lia).
    destruct (_ || _); lia.
Qed.

Lemma render_fin (d : nat) (neg : bool) (u : Z) :
  Format.render (S d) (Format.RFin neg u) =
  Format.sign_prefix neg ++ digits_of d u.
Proof. reflexivity. Qed.

Lemma digits_of_head (d : nat) (u : Z) :
  0 <= u ->
  exists c rest, digits_of d u = String c rest /\ is_digit c = true.
Proof.
  intros Hu. unfold digits_of.
  destruct (str_int_nonneg (u / 10 ^ Z.of_nat (S d)))
    as (c & rest & -> & Hc & _).
  - apply Z.div_pos; lia.
  - simpl. eauto.
Qed.

Lemma digits_of_inj (d : nat) (u1 u2 : Z) :
  0 <= u1 -> 0 <= u2 ->
  digits_of d u1 = digits_of d u2 -> u1 = u2.
Proof.
  intros H1 H2 H. unfold digits_of in H.
  set (p := 10 ^ Z.of_nat (S d)) in *.
  assert (Hp : 0 < p) by (apply Z.pow_pos_nonneg; lia).
  apply split_at_separator in H as [Hint Hfrac];
    try (apply str_int_free; [reflexivity | discriminate]).
  apply str_int_inj in Hint.
  apply fixed_digits_inj in Hfrac; try (apply Z.mod_pos_bound; exact Hp).
  rewrite (Z.div_mod u1 p), (Z.div_mod u2 p) by lia. congruence.
Qed.

(** Distinct rounded values are printed differently. *)
Lemma render_inj (d : nat) (r1 r2 : Format.rounded) :
  nonneg_units r1 -> nonneg_units r2 ->
  Format.render (S d) r1 = Format.render (S d) r2 -> r1 = r2.
Proof.
  assert (Hhead : forall u s c,
            0 <= u -> is_digit c = false ->
            digits_of d u <> String c s).
  { intros u s c Hu Hc H.
    destruct (digits_of_head d u Hu) as (c' & rest & Heq & Hc').
    rewrite Heq in H. injection H as -> _. congruence. }
  destruct r1 as [| n1 | n1 u1], r2 as [| n2 | n2 u2];
    rewrite ?render_fin; cbn [nonneg_units]; intros H1 H2 H;
    try destruct n1; try destruct n2;
    cbn [Format.render Format.sign_prefix append] in H;
    try reflexivity; try discriminate H;
    try (symmetry in H; apply Hhead in H; [contradiction | lia | reflexivity]);
    try (apply Hhead in H; [contradiction | lia | reflexivity]).
  - injection H as H. symmetry in H.
    apply Hhead in H; [contradiction | lia | reflexivity].
  - injection H as H. apply Hhead in H; [contradiction | lia | reflexivity].
  - injection H as H. f_equal. apply (digits_of_inj d); assumption.
  - f_equal. apply (digits_of_inj d); assumption.
Qed.

Lemma format_fixed_free (d : nat) (x : float) :
  free "_" (Format.format_fixed d x).
Proof.
  unfold Format.format_fixed.
  destruct (Format.round_decimals d x) as [| neg | neg u];
    cbn [Format.render].
  - cbn. repeat split; discriminate.
  - destruct neg; cbn; repeat split; discriminate.
  - apply free_app; [destruct neg; cbn; repeat split; discriminate |].
    apply free_app; [apply str_int_free; [reflexivity | discriminate] |].
    destruct d as [| d]; [exact I |].
    cbn [append]. split; [discriminate |].
    apply digits_only_free; [reflexivity | apply fixed_digits_digits].
Qed.

Lemma quality_name_inj (q1 q2 : Quality) :
  quality_name q1 = quality_name q2 -> q1 = q2.
Proof. destruct q1, q2; simpl; intros H; try reflexivity; discriminate H. Qed.

(** X1. The string that is hashed determines the count, the amplitude as
    rounded to two decimals, the horizon as rounded to one decimal and the
    quality level: two parameter sets give the same string exactly when
    they agree on these four. *)
Theorem params_str_distinguishes
  (n1 n2 : Z) (e1 e2 t1 t2 : float) (q1 q2 : Quality) :
  params_str n1 e1 t1 q1 = params_str n2 e2 t2 q2 <->
  n1 = n2 /\
  Format.round_decimals 2 e1 = Format.round_decimals 2 e2 /\
  Format.round_decimals 1 t1 = Format.round_decimals 1 t2 /\
  q1 = q2.
Proof.
  split.
  - unfold params_str. cbn [append]. intros H.
    apply split_at_separator in H as [Hn H];
      try (apply str_int_free; [reflexivity | discriminate]).
    apply split_at_separator in H as [He H]; try apply format_fixed_free.
    apply split_at_separator in H as [Ht Hq]; try apply format_fixed_free.
    repeat split.
    + apply str_int_inj, Hn.
    + apply (render_inj 1); auto using round_decimals_nonneg.
    + apply (render_inj 0); auto using round_decimals_nonneg.
    + apply quality_name_inj, Hq.
  - intros (-> & He & Ht & ->). unfold params_str.
    rewrite (format_fixed_of_rounded 2 e1 e2 He).
    rewrite (format_fixed_of_rounded 1 t1 t2 Ht).
    reflexivity.
Qed.

(** X2. The decimal a finite float is printed as is a nearest one: its
    count of units keeps the sign of the float, is exact when the float is a
    multiple of the unit by a non-negative power of two, and otherwise lies
    within half a unit of the exact binary value. *)
Theorem formatted_value_is_nearest (d : nat) (s : bool) (m : positive) (e : Z) :
  exists u,
    Format.round_decimals d (S754_finite s m e) = Format.RFin s u /\
    0 <= u /\
    (0 <= e -> u = Z.pos m * 10 ^ Z.of_nat d * 2 ^ e) /\
    (e < 0 -> 2 * Z.abs (Z.pos m * 10 ^ Z.of_nat d - u * 2 ^ (- e))
              <= 2 ^ (- e)).
Proof.
  pose proof (round_decimals_nonneg d (S754_finite s m e)) as Hnn.
  cbn [Format.round_decimals nonneg_units] in *.
  eexists. split; [reflexivity |]. split; [exact Hnn |].
  assert (Hten : 0 < 10 ^ Z.of_nat d) by (apply Z.pow_pos_nonneg; lia).
  split; intros He.
  - destruct (Z.leb_spec 0 e); [reflexivity | lia].
  - destruct (Z.leb_spec 0 e); [lia |].
    apply div_pow2_half_even_nearest; nia.
Qed.

(** X3. Given that [np.linspace] returns [num] samples, the generator
    returns exactly [count] pairs for every count of at least 1 (and the
    single pair below that). *)
Theorem generate_returns_count_pairs (ext : Externals) (count : Z) :
  linspace_contract ext ->
  List.length (generate_initial_conditions_optimized count) =
  Z.to_nat (Z.max 1 count).
Proof.
  intros Hlin. unfold generate_initial_conditions_optimized.
  destruct (Z.leb_spec count 1) as [Hle | Hgt].
  - simpl. lia.
  - rewrite length_combine, !length_map, Hlin.
    unfold indices. rewrite length_map, length_seq. lia.
Qed.

Lemma still_linspace : linspace_contract still.
Proof.
  intros start stop num endpoint. cbn.
  unfold indices. rewrite !length_map, length_seq. reflexivity.
Qed.

Lemma generate_returns_count_pairs_witness :
  List.length (@generate_initial_conditions_optimized still 8) = 8%nat.
Proof.
  exact (generate_returns_count_pairs still 8 still_linspace).
Defined.

Section Edges.

Context {ext : Externals}.

Lemma negative_count_empty (n k : Z) (eps T : float) (q : Quality) :
  n <= -1 ->
  num_points T (quality_settings q) = Ok k ->
  solve_trajectories_optimized n eps T q = Ok empty_batch.
Proof.
  intros Hn Hk.
  assert (Hrange : py_range 0 n n = Ok [0]).
  { unfold py_range.
    destruct (Z.eqb_spec n 0) as [? | _]; [lia |].
    destruct (Z.ltb_spec 0 n) as [? | _]; [lia |].
    replace ((0 - n - n - 1) / - n) with 1
      by (apply (Z.div_unique_pos _ _ 1 (- n - 1)); lia).
    reflexivity. }
  assert (Hslice : py_slice (generate_initial_conditions_optimized n) 0
                     (Z.min (0 + n) n) = []).
  { unfold generate_initial_conditions_optimized.
    destruct (Z.leb_spec n 1) as [_ | ?]; [| lia].
    unfold py_slice, clip_index.
    change (Z.of_nat (List.length [(tenth, tenth)])) with 1.
    change (0 <? 0) with false. cbv iota.
    destruct (Z.ltb_spec (Z.min (0 + n) n) 0) as [_ | ?]; [| lia].
    match goal with
    | |- firstn ?j _ = _ => replace j with 0%nat by lia
    end.
    reflexivity. }
  unfold solve_trajectories_optimized, solve_trajectories_chunked.
  rewrite Hk. cbn [bind]. rewrite Z.min_r by lia.
  rewrite Hrange. cbn [bind fold_left]. unfold chunk_loop.
  rewrite Hslice. reflexivity.
Qed.

Lemma zero_count_raises (eps T : float) (q : Quality) :
  exists e, solve_trajectories_optimized 0 eps T q = Raise e.
Proof.
  unfold solve_trajectories_optimized, solve_trajectories_chunked.
  destruct (num_points T (quality_settings q)) as [k | e]; cbn; eauto.
Qed.

End Edges.

Lemma undefined_points_raise (ext : Externals) (n : Z) (eps T : float)
  (q : Quality) :
  T = S754_nan \/ (exists sg, T = S754_infinity sg) ->
  exists e, solve_trajectories_optimized n eps T q = Raise e.
Proof.
  intros Hbad.
  assert (Hpoints : exists e, num_points T (quality_settings q) = Raise e).
  { destruct Hbad as [-> | [sg ->]].
    - exists ValueError. destruct q; reflexivity.
    - exists OverflowError. destruct q, sg; reflexivity. }
  destruct Hpoints as [e He]. exists e.
  unfold solve_trajectories_optimized, solve_trajectories_chunked.
  rewrite He. reflexivity.
Qed.

(** X4. [solve_trajectories_optimized] raises when the count is 0 (the
    chunk size [min(10, 0)] is a zero step for [range]) and when the horizon
    is NaN or infinite (the number of time points is undefined).  A failing
    solve of one trajectory never makes it raise: for array sizes within the
    sliders' ranges it returns a batch, the solver having been invoked on
    every initial condition, whatever the solver does. *)
Theorem solve_raises_on_bad_input (ext : Externals)
  (n : Z) (eps T : float) (q : Quality) :
  (n = 0 \/ T = S754_nan \/ (exists sg, T = S754_infinity sg) ->
   exists e, solve_trajectories_optimized n eps T q = Raise e) /\
  (forall k,
     num_points T (quality_settings q) = Ok k ->
     within_sliders n k ->
     exists b,
       solve_trajectories_optimized n eps T q = Ok b /\
       solver_calls b = generate_initial_conditions_optimized n).
Proof.
  split.
  - intros [-> | Hbad].
    + apply zero_count_raises.
    + apply undefined_points_raise, Hbad.
  - intros k Hk [[Hn _] _].
    rewrite (solve_returns n k) by assumption.
    eexists. split; reflexivity.
Qed.

(** With a NaN horizon the call raises; with the default sliders it
    returns and the solver has been invoked 8 times, although 3 of the
    solves fail. *)
Lemma solve_raises_on_bad_input_witness :
  (exists e,
     @solve_trajectories_optimized still 8 half S754_nan Balanced = Raise e) /\
  (exists b,
     @solve_trajectories_optimized still 8 half (PyFloat.of_Z 15) Balanced
       = Ok b /\
     List.length (solver_calls b) = 8%nat).
Proof.
  split.
  - apply (proj1 (solve_raises_on_bad_input still 8 half S754_nan Balanced)).
    right. left. reflexivity.
  - assert (Hsizes : within_sliders 8 450)
      by (unfold within_sliders; lia).
    destruct (proj2 (solve_raises_on_bad_input still 8 half (PyFloat.of_Z 15)
                       Balanced) 450 eq_refl Hsizes) as (b & Hb & Hcalls).
    exists b. split; [exact Hb |]. rewrite Hcalls. vm_compute. reflexivity.
Defined.

(** X5. A returned batch never holds more trajectories than the solver
    was invoked on, and the solver is never invoked more often than the
    count asks for (not at all for a negative count). *)
Theorem batch_never_exceeds_count (ext : Externals)
  (n : Z) (eps T : float) (q : Quality) (b : Batch) :
  solve_trajectories_optimized n eps T q = Ok b ->
  (List.length (trajectories b) <= List.length (solver_calls b))%nat /\
  Z.of_nat (List.length (solver_calls b)) <= Z.max 0 n.
Proof.
  intros Hb.
  destruct (num_points T (quality_settings q)) as [k | e] eqn:Hk.
  - destruct (Z.le_gt_cases 1 n) as [Hpos | Hsmall].
    + rewrite (solve_returns n k) in Hb by assumption.
      injection Hb as <-. cbn [trajectories solver_calls].
      pose proof (stored_length eps T (quality_settings q)
                    (np_linspace PyFloat.zero T k true)
                    (generate_initial_conditions_optimized n)) as Hlen.
      pose proof (generate_length_le n Hpos). lia.
    + destruct (Z.eq_dec n 0) as [-> | Hn0].
      * destruct (zero_count_raises eps T q) as [e He]. congruence.
      * rewrite (negative_count_empty n k) in Hb by (assumption || lia).
        injection Hb as <-. simpl. lia.
  - unfold solve_trajectories_optimized, solve_trajectories_chunked in Hb.
    rewrite Hk in Hb. discriminate Hb.
Qed.

Lemma batch_never_exceeds_count_witness :
  match @solve_trajectories_optimized still 8 half (PyFloat.of_Z 15)
          Balanced with
  | Ok b => (List.length (trajectories b) <= List.length (solver_calls b))%nat
  | Raise _ => False
  end.
Proof.
  destruct (@solve_trajectories_optimized still 8 half (PyFloat.of_Z 15)
              Balanced) as [b | e] eqn:E.
  - exact (proj1 (batch_never_exceeds_count still 8 half (PyFloat.of_Z 15)
                    Balanced b E)).
  - vm_compute in E. discriminate E.
Defined.

Section MoreRunFacts.

Context {ext : Externals}.

Lemma run_fails (s : SessionState) (m m' : Memo) (i : Inputs) (clk : Clock)
  (e : exception) (calls : list (float * float)) :
  compute_due s i clk = true ->
  cached_solve m i (t_memo clk) = (Raise e, m', calls) ->
  run s m i clk =
  {| r_session := s;
     r_memo := m';
     r_trajectories := Some [];
     r_solver_calls := calls;
     r_branch := ComputeFailed;
     r_display := Warning |}.
Proof. unfold run. intros -> ->. reflexivity. Qed.

Lemma bad_horizon_raises (T : float) (q : Quality) :
  T = S754_nan \/ (exists sg, T = S754_infinity sg) ->
  exists e, num_points T (quality_settings q) = Raise e.
Proof.
  intros [-> | [sg ->]].
  - exists ValueError. destruct q; reflexivity.
  - exists OverflowError. destruct q, sg; reflexivity.
Qed.

(** After a run the session is the one before it, or the record the
    computed arm writes. *)
Lemma run_session_cases (s : SessionState) (m : Memo) (i : Inputs)
  (clk : Clock) :
  r_session (run s m i clk) = s \/
  exists b,
    r_session (run s m i clk) =
    {| last_computation_time := t_done clk;
       cached_trajectories := Some b;
       cached_params_hash := Some (fingerprint i) |}.
Proof.
  unfold run. destruct (compute_due s i clk); [| left; reflexivity].
  destruct (cached_solve m i (t_memo clk)) as [[[trajs | e] m'] calls].
  - right. exists trajs. reflexivity.
  - left. reflexivity.
Qed.

End MoreRunFacts.

(** X6. When the computation raises (count 0, or a NaN or infinite
    horizon), the run shows the warning with an empty list, the solver has
    not been invoked, and the session state is left as it was: neither the
    cached batch, nor the fingerprint, nor [last_computation_time] changes. *)
Theorem failed_computation_changes_nothing (ext : Externals)
  (s : SessionState) (m : Memo) (i : Inputs) (clk : Clock) :
  compute_due s i clk = true ->
  fst (memo_get (t_memo clk) m (current_args i)) = None ->
  num_trajectories i = 0 \/ max_time i = S754_nan \/
    (exists sg, max_time i = S754_infinity sg) ->
  let r := run s m i clk in
  r_branch r = ComputeFailed /\
  r_session r = s /\
  r_trajectories r = Some [] /\
  r_solver_calls r = [] /\
  r_display r = Warning.
Proof.
  intros Hdue Hmiss Hbad r.
  assert (Hraise : exists e,
            solve_trajectories_optimized (num_trajectories i) (epsilon i)
              (max_time i) (computation_quality i) = Raise e).
  { destruct Hbad as [Hzero | Hhorizon].
    - rewrite Hzero. apply zero_count_raises.
    - destruct (bad_horizon_raises (max_time i) (computation_quality i)
                  Hhorizon) as [e He].
      exists e. unfold solve_trajectories_optimized, solve_trajectories_chunked.
      rewrite He. reflexivity. }
  destruct Hraise as [e He].
  assert (Hsolve : cached_solve m i (t_memo clk) =
                   (Raise e, snd (memo_get (t_memo clk) m (current_args i)),
                    [])).
  { unfold cached_solve.
    destruct (memo_get (t_memo clk) m (current_args i)) as [[v |] m'];
      [discriminate Hmiss |].
    rewrite He. reflexivity. }
  subst r. rewrite (run_fails s m _ i clk e [] Hdue Hsolve).
  cbn. auto.
Qed.

Lemma failed_computation_changes_nothing_witness :
  let r := @run still (r_session first_run) (r_memo first_run) zero_inputs
             (clock_at 1010) in
  r_session r = r_session first_run /\ r_display r = Warning.
Proof.
  assert (Hdue : compute_due (r_session first_run) zero_inputs (clock_at 1010)
                 = true) by (vm_compute; reflexivity).
  assert (Hmiss : fst (memo_get (t_memo (clock_at 1010)) (r_memo first_run)
                         (current_args zero_inputs)) = None)
    by (vm_compute; reflexivity).
  destruct (failed_computation_changes_nothing still (r_session first_run)
              (r_memo first_run) zero_inputs (clock_at 1010) Hdue Hmiss
              (or_introl eq_refl))
    as (_ & Hsession & _ & _ & Hshow).
  cbv zeta. split; [exact Hsession | exact Hshow].
Defined.

(** X7. In automatic mode a run whose fingerprint is the stored one
    reuses the cached batch, whatever the clock reads: the session cache has
    no expiry, parameters that differ below the printed resolution count as
    unchanged, and neither the solver nor the memo is touched. *)
Theorem unchanged_fingerprint_is_never_recomputed (ext : Externals)
  (s : SessionState) (m : Memo) (i : Inputs) (clk : Clock)
  (b : list Trajectory) :
  auto_compute i = true ->
  cached_params_hash s = Some (fingerprint i) ->
  cached_trajectories s = Some b ->
  let r := run s m i clk in
  r_branch r = Reused /\
  r_solver_calls r = [] /\
  r_trajectories r = Some b /\
  r_session r = s /\
  r_memo r = m.
Proof.
  intros Hauto Hhash Hb r. subst r.
  rewrite run_reuses.
  - cbn. auto.
  - erewrite compute_due_cached by eassumption.
    apply same_fingerprint_no_recompute; assumption.
Qed.

(** The default sliders again, one hour and more after the first run. *)
Lemma unchanged_fingerprint_is_never_recomputed_witness :
  r_solver_calls
    (@run still (r_session first_run) (r_memo first_run) default_inputs
       (clock_at 5000)) = [].
Proof.
  assert (Hhash : cached_params_hash (r_session first_run)
                  = Some (fingerprint default_inputs))
    by (vm_compute; reflexivity).
  assert (Hb : { b | cached_trajectories (r_session first_run) = Some b }).
  { eexists. vm_compute. reflexivity. }
  destruct Hb as [b Hb].
  exact (proj1 (proj2 (unchanged_fingerprint_is_never_recomputed still
                         (r_session first_run) (r_memo first_run)
                         default_inputs (clock_at 5000) b eq_refl Hhash Hb))).
Defined.

(** X8. Along any sequence of runs of a session, the three session fields
    are set together: either nothing has been stored yet and the state is
    the initial one, or the state holds a batch together with the
    fingerprint of the parameters of one of the runs and the time that very
    run read after computing. *)
Theorem session_fields_are_set_together (ext : Externals)
  (m : Memo) (steps : list (Inputs * Clock)) :
  let s := fst (run_all initial_session m steps) in
  s = initial_session \/
  exists i clk b,
    In (i, clk) steps /\
    s = {| last_computation_time := t_done clk;
           cached_trajectories := Some b;
           cached_params_hash := Some (fingerprint i) |}.
Proof.
  cbv zeta.
  assert (Hgen : forall steps s0 m0,
            fst (run_all s0 m0 steps) = s0 \/
            exists i clk b,
              In (i, clk) steps /\
              fst (run_all s0 m0 steps) =
              {| last_computation_time := t_done clk;
                 cached_trajectories := Some b;
                 cached_params_hash := Some (fingerprint i) |}).
  { clear. induction steps as [| [i clk] rest IH]; intros s0 m0.
    - left. reflexivity.
    - cbn [run_all].
      destruct (IH (r_session (run s0 m0 i clk)) (r_memo (run s0 m0 i clk)))
        as [Hsame | (i' & clk' & b & Hin & Heq)].
      + rewrite Hsame.
        destruct (run_session_cases s0 m0 i clk) as [Hkeep | [b Hset]].
        * left. exact Hkeep.
        * right. exists i, clk, b. split; [left; reflexivity | exact Hset].
      + right. exists i', clk', b. split; [right; exact Hin | exact Heq]. }
  apply Hgen.
Qed.

(** ** The plotted data *)

Lemma stride_from_length {A} (step skip : nat) (l : list A) :
  (1 <= step)%nat ->
  List.length (stride_from step skip l) =
  ((List.length l - skip + (step - 1)) / step)%nat.
Proof.
  intros Hstep. revert skip.
  induction l as [| x rest IH]; intros skip.
  - simpl. symmetry. apply Nat.div_small. lia.
  - destruct skip as [| k].
    + cbn [stride_from List.length]. rewrite IH.
      replace (S (List.length rest) - 0 + (step - 1))%nat
        with (List.length rest + 1 * step)%nat by lia.
      rewrite Nat.div_add by lia.
      destruct (Nat.le_gt_cases (step - 1) (List.length rest)) as [Hge | Hlt].
      * replace (List.length rest - (step - 1) + (step - 1))%nat
          with (List.length rest) by lia.
        lia.
      * replace (List.length rest - (step - 1) + (step - 1))%nat
          with (step - 1)%nat by lia.
        rewrite !Nat.div_small by lia. lia.
    + cbn [stride_from List.length]. rewrite IH. reflexivity.
Qed.

Lemma py_stride_length {A} (l : list A) (step : nat) :
  (1 <= step)%nat ->
  List.length (py_stride l step) =
  ((List.length l + (step - 1)) / step)%nat.
Proof.
  intros Hstep. unfold py_stride. rewrite stride_from_length by exact Hstep.
  rewrite Nat.sub_0_r. reflexivity.
Qed.

(** More than 1000 samples are thinned to between 1000 and 1999. *)
Lemma thinned_length_bounds (len : nat) :
  (1000 < len)%nat ->
  let step := (len / 1000)%nat in
  (1 <= step /\ 1000 <= (len + (step - 1)) / step <= 1999)%nat.
Proof.
  intros Hlen step.
  pose proof (Nat.div_mod_eq len 1000) as Hdm.
  pose proof (Nat.mod_upper_bound len 1000 ltac:(lia)) as Hr.
  fold step in Hdm.
  assert (Hstep : (1 <= step)%nat) by nia.
  split; [exact Hstep |].
  pose proof (Nat.div_mod_eq (len + (step - 1)) step) as Hq.
  pose proof (Nat.mod_upper_bound (len + (step - 1)) step ltac:(lia)) as Hq'.
  set (p := ((len + (step - 1)) / step)%nat) in *.
  split; nia.
Qed.

Example stride_of_ten :
  py_stride [0; 1; 2; 3; 4; 5; 6; 7; 8; 9] 3 = [0; 3; 6; 9].
Proof. reflexivity. Qed.

Lemma plot_series_sizes (traj : Trajectory) :
  List.length (traj_x traj) = List.length (traj_t traj) ->
  List.length (traj_v traj) = List.length (traj_t traj) ->
  let '(t_plot, x_plot, v_plot) := plot_series traj in
  List.length x_plot = List.length t_plot /\
  List.length v_plot = List.length t_plot /\
  ((List.length (traj_t traj) <= 1000)%nat ->
   (t_plot, x_plot, v_plot) = (traj_t traj, traj_x traj, traj_v traj)) /\
  ((1000 < List.length (traj_t traj))%nat ->
   (1000 <= List.length t_plot <= 1999)%nat).
Proof.
  intros Hx Hv. unfold plot_series.
  destruct (Nat.ltb_spec 1000 (List.length (traj_t traj))) as [Hlong | Hshort].
  - destruct (thinned_length_bounds _ Hlong) as [Hstep Hbounds].
    rewrite !py_stride_length by exact Hstep.
    rewrite Hx, Hv. repeat split; try lia.
  - repeat split; auto; lia.
Qed.

Lemma Forall_py_slice {A} (P : A -> Prop) (l : list A) (lo hi : Z) :
  Forall P l -> Forall P (py_slice l lo hi).
Proof.
  intros Hall. unfold py_slice.
  rewrite <- (firstn_skipn
                (Z.to_nat (clip_index (Z.of_nat (List.length l)) lo)) l)
    in Hall.
  apply Forall_app in Hall as [_ Htail].
  set (tail := skipn _ l) in *.
  rewrite <- (firstn_skipn
                (Z.to_nat (clip_index (Z.of_nat (List.length l)) hi -
                           clip_index (Z.of_nat (List.length l)) lo)) tail)
    in Htail.
  apply Forall_app in Htail as [Hhead _]. exact Hhead.
Qed.

(** X10. The plot draws the first 30 trajectories of the batch, in order,
    and no others: one curve per trajectory, marked at its initial state. *)
Theorem plot_draws_the_first_thirty (traj_data : list Trajectory) :
  let curves := create_optimized_plots traj_data 30 in
  List.length curves = Nat.min 30 (List.length traj_data) /\
  map curve_start curves = map traj_initial (firstn 30 traj_data).
Proof.
  cbv zeta. unfold create_optimized_plots.
  rewrite py_slice_nonneg by lia.
  change (Z.to_nat 30 - Z.to_nat 0)%nat with 30%nat.
  change (skipn (Z.to_nat 0) traj_data) with traj_data.
  split.
  - rewrite length_map, length_firstn. reflexivity.
  - rewrite map_map. apply map_ext. intros traj.
    destruct (plot_series traj) as [[t_plot x_plot] v_plot]. reflexivity.
Qed.

(** X11. When the three series of every trajectory have one length, every
    plotted curve has as many positions as velocities, and never more than
    1999 points: series of more than 1000 samples are thinned by the step
    [len // 1000]. *)
Theorem plotted_curves_are_thinned (traj_data : list Trajectory)
  (max_trajectories : Z) :
  Forall (fun traj =>
            List.length (traj_x traj) = List.length (traj_t traj) /\
            List.length (traj_v traj) = List.length (traj_t traj))
         traj_data ->
  Forall (fun c =>
            List.length (curve_x c) = List.length (curve_v c) /\
            (List.length (curve_x c) <= 1999)%nat)
         (create_optimized_plots traj_data max_trajectories).
Proof.
  intros Hall. unfold create_optimized_plots.
  apply Forall_map.
  assert (Hshown : Forall (fun traj =>
            List.length (traj_x traj) = List.length (traj_t traj) /\
            List.length (traj_v traj) = List.length (traj_t traj))
            (py_slice traj_data 0 max_trajectories)).
  { apply Forall_py_slice, Hall. }
  revert Hshown. apply Forall_impl. intros traj [Hx Hv].
  pose proof (plot_series_sizes traj Hx Hv) as Hsizes.
  destruct (plot_series traj) as [[t_plot x_plot] v_plot].
  destruct Hsizes as (Hxl & Hvl & Hsame & Hthin).
  cbn [curve_x curve_v]. split; [congruence |].
  destruct (Nat.le_gt_cases (List.length (traj_t traj)) 1000) as [Hs | Hl].
  - specialize (Hsame Hs). injection Hsame as -> -> ->. lia.
  - specialize (Hthin Hl). lia.
Qed.

Lemma plotted_curves_are_thinned_witness :
  Forall (fun c => List.length (curve_x c) = List.length (curve_v c) /\
                   (List.length (curve_x c) <= 1999)%nat)
    (create_optimized_plots [flat_trajectory 2500; flat_trajectory 12] 30).
Proof.
  apply plotted_curves_are_thinned.
  repeat constructor; vm_compute; reflexivity.
Defined.

Example thinning_2500 :
  map (fun c => List.length (curve_x c))
    (create_optimized_plots [flat_trajectory 2500; flat_trajectory 12] 30)
  = [1250; 12]%nat.
Proof. vm_compute. reflexivity. Qed.

(** X12. For a count of at least 1 the chunk loop runs
    [ceil(count / min(10, count))] times, every chunk starts inside the
    range, and no chunk holds more than 10 initial conditions. *)
Theorem chunks_hold_at_most_ten {A} (ics : list A) (n : Z) :
  1 <= n ->
  exists starts,
    py_range 0 n (Z.min 10 n) = Ok starts /\
    List.length starts = Z.to_nat ((n + Z.min 10 n - 1) / Z.min 10 n) /\
    Forall (fun start =>
              0 <= start < n /\
              (List.length
                 (py_slice ics start (Z.min (start + Z.min 10 n) n))
               <= 10)%nat)
           starts.
Proof.
  intros Hn. set (c := Z.min 10 n).
  assert (Hc : 1 <= c <= 10) by (subst c; lia).
  exists (chunk_starts c (Z.to_nat ((n - 0 + c - 1) / c))).
  split; [apply py_range_chunks; lia |].
  split.
  - unfold chunk_starts, indices. rewrite !length_map, length_seq.
    f_equal. f_equal. lia.
  - set (k := (n - 0 + c - 1) / c).
    assert (Hk : (k - 1) * c < n).
    { subst k.
      pose proof (Z.div_mod (n - 0 + c - 1) c ltac:(lia)) as Hdm.
      pose proof (Z.mod_pos_bound (n - 0 + c - 1) c ltac:(lia)) as Hmod.
      nia. }
    unfold chunk_starts, indices. rewrite map_map.
    apply Forall_map, Forall_forall. intros j Hj.
    apply in_seq in Hj.
    assert (Hstart : 0 <= 0 + Z.of_nat j * c < n) by nia.
    split; [exact Hstart |].
    rewrite py_slice_nonneg by lia.
    rewrite length_firstn. lia.
Qed.

Lemma chunks_hold_at_most_ten_witness :
  exists starts,
    py_range 0 25 (Z.min 10 25) = Ok starts /\ List.length starts = 3%nat.
Proof.
  assert (Hn : 1 <= 25) by lia.
  destruct (chunks_hold_at_most_ten (@nil nat) 25 Hn)
    as (starts & Hrange & Hlen & _).
  exists starts. split; [exact Hrange | exact Hlen].
Defined.



